(** * EU medical-device scrapers: a shallow embedding and its properties

    The three scripts [german_scraper_main.py], [dutch_scraper_main.py] and
    [italy_scraper_main.py] share one shape: fetch a page, parse it with
    BeautifulSoup, extract records, find the link to the next page, loop,
    and write the records with [csv.DictWriter].

    Python values are modelled as follows.
    - A [str] is a list of Unicode code points (integers), lone surrogates
      included, as in CPython.
    - A parsed document is a tree of tags and strings ([node]).
    - Exceptions are an explicit outcome ([Raise]); a [while] loop takes fuel
      and reports [OutOfFuel] when it is exhausted.
    - The outside world (pages fetched, console, files) is a record threaded
      through a state-and-exception monad. *)

From Stdlib Require Import ZArith Lia Bool Ascii String.
From stdpp Require Import base option list gmap.

Local Open Scope Z_scope.

(** ** Python strings *)

Module PyStr.

(** A Python [str]: a sequence of code points. *)
Definition str := list Z.

(** A literal of the source, written as a Rocq string. *)
Definition py (s : string) : str :=
  map (fun a => Z.of_N (N_of_ascii a)) (list_ascii_of_string s).
Arguments py s%_string : simpl never.

(** [Py_UNICODE_ISSPACE]: the characters removed by [str.strip()]. *)
Definition isspace (c : Z) : bool :=
  ((0x09 <=? c) && (c <=? 0x0D)) || ((0x1C <=? c) && (c <=? 0x20))
  || (c =? 0x85) || (c =? 0xA0) || (c =? 0x1680)
  || ((0x2000 <=? c) && (c <=? 0x200A))
  || (c =? 0x2028) || (c =? 0x2029) || (c =? 0x202F) || (c =? 0x205F)
  || (c =? 0x3000).

Fixpoint lstrip (s : str) : str :=
  match s with
  | c :: r => if isspace c then lstrip r else s
  | [] => []
  end.

Definition rstrip (s : str) : str := rev (lstrip (rev s)).

(** [s.strip()] *)
Definition strip (s : str) : str := rstrip (lstrip s).

(** [s.split(sep)] for a one-character separator; never the empty list. *)
Fixpoint split (sep : Z) (s : str) : list str :=
  match s with
  | [] => [[]]
  | c :: r =>
      if c =? sep then [] :: split sep r
      else match split sep r with
           | h :: t => (c :: h) :: t
           | [] => [[c]]
           end
  end.

(** Truth value of a [str]: non-empty. *)
Definition str_truthy (s : str) : bool :=
  match s with [] => false | _ :: _ => true end.

End PyStr.
Export PyStr.

(** ** The UTF-8 codec with the two error handlers the Italian script uses *)

Module Utf8.

Definition is_surrogate (c : Z) : bool := (0xD800 <=? c) && (c <=? 0xDFFF).

(** [str.encode('utf-8', 'surrogatepass')] on one code point: the encoder
    of CPython; the handler [surrogatepass] writes a surrogate as the three
    bytes the general scheme gives it. *)
Definition encode_cp (ch : Z) : list Z :=
  if ch <? 0x80 then [ch]
  else if ch <? 0x800 then
    [Z.lor 0xC0 (Z.shiftr ch 6); Z.lor 0x80 (Z.land ch 0x3F)]
  else if is_surrogate ch then
    [Z.lor 0xE0 (Z.shiftr ch 12);
     Z.lor 0x80 (Z.land (Z.shiftr ch 6) 0x3F);
     Z.lor 0x80 (Z.land ch 0x3F)]
  else if ch <? 0x10000 then
    [Z.lor 0xE0 (Z.shiftr ch 12);
     Z.lor 0x80 (Z.land (Z.shiftr ch 6) 0x3F);
     Z.lor 0x80 (Z.land ch 0x3F)]
  else
    [Z.lor 0xF0 (Z.shiftr ch 18);
     Z.lor 0x80 (Z.land (Z.shiftr ch 12) 0x3F);
     Z.lor 0x80 (Z.land (Z.shiftr ch 6) 0x3F);
     Z.lor 0x80 (Z.land ch 0x3F)].

Definition encode_surrogatepass (text : str) : list Z :=
  flat_map encode_cp text.

Definition is_continuation (b : Z) : bool := (0x80 <=? b) && (b <? 0xC0).

(** [bytes.decode('utf-8', 'ignore')]: the strict decoder of CPython, where
    the handler [ignore] drops the bytes of each reported error and decoding
    resumes after them. An invalid start byte drops one byte; an invalid
    continuation byte drops the bytes before it; an unexpected end of data
    drops the rest. *)
Fixpoint decode_ignore (s : list Z) : str :=
  match s with
  | [] => []
  | ch :: s1 =>
    if ch <? 0x80 then ch :: decode_ignore s1
    else if ch <? 0xE0 then
      if ch <? 0xC2 then decode_ignore s1
      else
        match s1 with
        | [] => []
        | ch2 :: s2 =>
          if negb (is_continuation ch2) then decode_ignore s1
          else (Z.shiftl ch 6 + ch2 - (Z.shiftl 0xC0 6 + 0x80))
                 :: decode_ignore s2
        end
    else if ch <? 0xF0 then
      match s1 with
      | [] => []
      | ch2 :: s2 =>
        if negb (is_continuation ch2)
           || (if ch2 <? 0xA0 then ch =? 0xE0 else ch =? 0xED)
        then decode_ignore s1
        else
          match s2 with
          | [] => []
          | ch3 :: s3 =>
            if negb (is_continuation ch3) then decode_ignore s2
            else (Z.shiftl ch 12 + Z.shiftl ch2 6 + ch3
                  - (Z.shiftl 0xE0 12 + Z.shiftl 0x80 6 + 0x80))
                   :: decode_ignore s3
          end
      end
    else if ch <? 0xF5 then
      match s1 with
      | [] => []
      | ch2 :: s2 =>
        if negb (is_continuation ch2)
           || (if ch2 <? 0x90 then ch =? 0xF0 else ch =? 0xF4)
        then decode_ignore s1
        else
          match s2 with
          | [] => []
          | ch3 :: s3 =>
            if negb (is_continuation ch3) then decode_ignore s2
            else
              match s3 with
              | [] => []
              | ch4 :: s4 =>
                if negb (is_continuation ch4) then decode_ignore s3
                else (Z.shiftl ch 18 + Z.shiftl ch2 12 + Z.shiftl ch3 6 + ch4
                      - (Z.shiftl 0xF0 18 + Z.shiftl 0x80 12
                         + Z.shiftl 0x80 6 + 0x80))
                       :: decode_ignore s4
              end
          end
      end
    else decode_ignore s1
  end.

(** Whether a string holds a surrogate.  [str.encode('utf-8')] with the
    default handler [strict] raises UnicodeEncodeError exactly on such a
    string. *)
Definition has_surrogate (s : str) : bool := existsb is_surrogate s.

(** [remove_surrogates] of [italy_scraper_main.py]. *)
Definition remove_surrogates (text : str) : str :=
  decode_ignore (encode_surrogatepass text).

(** The code points of a Python [str]. *)
Definition is_code_point (c : Z) : Prop := 0 <= c < 0x110000.

(** Code points that survive the round trip: everything the decoder can
    produce. *)
Definition stable (c : Z) : Prop :=
  c < 0x80 \/ (0x80 <= c < 0xD800) \/ (0xE000 <= c < 0x110000).

End Utf8.
Export Utf8.

(** ** Python values, exceptions and sequences *)

Module Py.

(** The exceptions the scripts can meet.  All of them are subclasses of
    [Exception], so [except Exception] catches each one.
    [RequestException] stands for the transport failures of [requests]
    (connection error, timeout, invalid URL, ...); [UnicodeEncodeError] is
    what writing a string with a lone surrogate to a UTF-8 file raises. *)
Inductive exn : Type :=
  | AttributeError
  | IndexError
  | TypeError
  | ValueError
  | UnicodeEncodeError
  | RequestException (msg : str).

(** The outcome of a computation without side effects. *)
Inductive result (A : Type) : Type :=
  | Return (a : A)
  | Raise (e : exn).
Arguments Return {A} a.
Arguments Raise {A} e.

#[export] Instance result_ret : MRet result := fun A a => Return a.
#[export] Instance result_bind : MBind result :=
  fun A B f r => match r with Return a => f a | Raise e => Raise e end.

(** [l[i]], negative indices included. *)
Definition py_index {A} (l : list A) (i : Z) : result A :=
  let n := Z.of_nat (length l) in
  let j := if i <? 0 then i + n else i in
  if (0 <=? j) && (j <? n) then
    match l !! Z.to_nat j with
    | Some x => Return x
    | None => Raise IndexError
    end
  else Raise IndexError.

(** Truth value of an optional string ([None] and [''] are false). *)
Definition truthy (o : option str) : bool :=
  match o with Some s => str_truthy s | None => false end.

(** Truth value of a list. *)
Definition list_truthy {A} (l : list A) : bool :=
  match l with [] => false | _ :: _ => true end.

End Py.
Export Py.

(** ** The parsed document (BeautifulSoup) *)

Module Soup.

(** A node of the tree.  A string node carries whether [get_text] keeps it
    (a [NavigableString] or [CData]) or leaves it out (a [Comment], a
    [Doctype], ...); every one of them is a [str].  A tag has its name, its
    single-valued attributes, the value of its [class] attribute, which
    BeautifulSoup keeps as a list of tokens ([None] when the attribute is
    missing), and its children. *)
#[local] Unset Elimination Schemes.
Inductive node : Type :=
  | NavigableString (in_text : bool) (s : str)
  | Tag (name : str) (attrs : list (str * str))
        (class_ : option (list str)) (contents : list node).
#[local] Set Elimination Schemes.

(** A node as the scripts hold it: with the sibling that follows it. *)
Record element : Type := Element { el : node; next_sibling : option node }.

(** The descendants of a node in document order. *)
Fixpoint descendants (n : node) : list element :=
  match n with
  | NavigableString _ _ => []
  | Tag _ _ _ cs =>
      (fix go (l : list node) : list element :=
         match l with
         | [] => []
         | c :: rest =>
             Element c (head rest) :: (descendants c ++ go rest)
         end) cs
  end.

Definition is_tag (n : node) : bool :=
  match n with Tag _ _ _ _ => true | NavigableString _ _ => false end.

(** Search criterion: the tag name. *)
Definition named (name : str) (n : node) : bool :=
  match n with
  | Tag nm _ _ _ => bool_decide (nm = name)
  | NavigableString _ _ => false
  end.

(** [' '.join(tokens)] *)
Fixpoint join_space (tokens : list str) : str :=
  match tokens with
  | [] => []
  | [t] => t
  | t :: rest => t ++ 32 :: join_space rest
  end.

(** Search criterion [class_=c]: one token of the class attribute is [c],
    or the whole attribute, joined by spaces, is [c]. *)
Definition has_class (c : str) (n : node) : bool :=
  match n with
  | Tag _ _ (Some tokens) _ =>
      existsb (fun t => bool_decide (t = c)) tokens
      || bool_decide (join_space tokens = c)
  | _ => false
  end.

Fixpoint assoc {V} (k : str) (l : list (str * V)) : option V :=
  match l with
  | [] => None
  | (k', v) :: rest => if bool_decide (k' = k) then Some v else assoc k rest
  end.

(** [tag.get(key)] for a single-valued attribute. *)
Definition get (e : element) (key : str) : option str :=
  match el e with
  | Tag _ attrs _ _ => assoc key attrs
  | NavigableString _ _ => None
  end.

(** Search criterion [attrs={key: v}] for a single-valued attribute. *)
Definition has_attr (key v : str) (n : node) : bool :=
  match n with
  | Tag _ attrs _ _ =>
      match assoc key attrs with
      | Some v' => bool_decide (v' = v)
      | None => false
      end
  | NavigableString _ _ => false
  end.

(** [e.find_all(...)]: the descendant tags that meet the criterion. *)
Definition find_all (e : element) (crit : node -> bool) : list element :=
  List.filter (fun d => is_tag (el d) && crit (el d)) (descendants (el e)).

(** [e.find(...)]: the first of them, or [None]. *)
Definition find (e : element) (crit : node -> bool) : option element :=
  head (find_all e crit).

(** [e.get_text()], also [e.text]: the strings below [e], concatenated. *)
Definition get_text (e : element) : str :=
  flat_map (fun d => match el d with
                     | NavigableString true s => s
                     | _ => []
                     end) (descendants (el e)).

(** A method called on the result of [find]: [None] has no attributes. *)
Definition not_none {A} (o : option A) : result A :=
  match o with Some x => Return x | None => Raise AttributeError end.

(** What a record holds under a field name: a string or, by way of
    [Tag.__call__], a result set. *)
Inductive value : Type :=
  | VStr (s : str)
  | VResultSet (els : list node).

(** [x.strip()] where [x] is the sibling after an element.  On a string it
    is [str.strip].  [None] has no attribute [strip].  On a tag, the
    attribute [strip] is [tag.find('strip')]: mostly [None], which is not
    callable; a tag, when called, is its [find_all()]. *)
Definition call_strip (x : option node) : result value :=
  match x with
  | None => Raise AttributeError
  | Some (NavigableString _ s) => Return (VStr (strip s))
  | Some (Tag _ _ _ _ as t) =>
      match find (Element t None) (named (py "strip")) with
      | None => Raise TypeError
      | Some t' => Return (VResultSet (map el (find_all t' (fun _ => true))))
      end
  end.

(** Whether the markup of a node holds a surrogate.  [str(tag)] spells out
    the name, the attributes and the class tokens of the tag and, in turn,
    its children; a string node is written with its text. *)
Fixpoint node_has_surrogate (n : node) : bool :=
  match n with
  | NavigableString _ s => has_surrogate s
  | Tag name attrs class_ cs =>
      has_surrogate name
      || existsb (fun kv => has_surrogate kv.1 || has_surrogate kv.2) attrs
      || match class_ with
         | Some tokens => existsb has_surrogate tokens
         | None => false
         end
      || (fix go (l : list node) : bool :=
            match l with
            | [] => false
            | c :: rest => node_has_surrogate c || go rest
            end) cs
  end.

(** Whether the text the [csv] writer makes of a value holds a surrogate:
    the string itself, or [str(result_set)], the markup of its tags. *)
Definition value_has_surrogate (v : value) : bool :=
  match v with
  | VStr s => has_surrogate s
  | VResultSet els => existsb node_has_surrogate els
  end.

(** A record: a Python [dict], its keys in insertion order. *)
Definition record := list (str * value).

Definition dict_keys (d : record) : list str := map fst d.

(** [d.get(key, default)] *)
Definition dict_get (d : record) (key : str) (default : value) : value :=
  match assoc key d with Some v => v | None => default end.

End Soup.
Export Soup.

(** ** The outside world and the monad of the scripts *)

Module World.

(** An argument of [print]. *)
Inductive pyobj : Type :=
  | PStr (s : str)
  | PNone
  | PExn (e : exn).

Definition obj_of (o : option str) : pyobj :=
  match o with Some s => PStr s | None => PNone end.

(** A row handed to the [csv] writer. *)
Definition row := list value.

(** The world: the URLs requested so far, the lines printed so far (each
    the arguments of one [print]), and the files, each the rows written to
    it since it was opened.  Opening a file always succeeds; writing a row
    fails when the row cannot be encoded. *)
Record world : Type := World {
  fetched : list str;
  console : list (list pyobj);
  files : gmap str (list row)
}.

(** The outcome of a run: a value, an exception, or a loop that was still
    running when the fuel ran out. *)
Inductive outcome (A : Type) : Type :=
  | Done (a : A)
  | Raised (e : exn)
  | OutOfFuel.
Arguments Done {A} a.
Arguments Raised {A} e.
Arguments OutOfFuel {A}.

Definition M (A : Type) : Type := world -> world * outcome A.

#[export] Instance M_ret : MRet M := fun A a w => (w, Done a).
#[export] Instance M_bind : MBind M :=
  fun A B f m w =>
    match m w with
    | (w', Done a) => f a w'
    | (w', Raised e) => (w', Raised e)
    | (w', OutOfFuel) => (w', OutOfFuel)
    end.

Definition lift {A} (r : result A) : M A :=
  fun w => (w, match r with Return a => Done a | Raise e => Raised e end).

Definition out_of_fuel {A} : M A := fun w => (w, OutOfFuel).

(** [try: body except Exception as e: handler(e)] *)
Definition try_except {A} (body : M A) (handler : exn -> M A) : M A :=
  fun w =>
    match body w with
    | (w', Raised e) => handler e w'
    | r => r
    end.

Definition print (args : list pyobj) : M unit :=
  fun w => (World (fetched w) (console w ++ [args]) (files w), Done tt).

(** [open(filename, "w")]: the file is created, or emptied. *)
Definition open_w (filename : str) : M unit :=
  fun w => (World (fetched w) (console w) (<[filename := []]> (files w)),
            Done tt).

(** A row whose line cannot be encoded as UTF-8: one of its cells holds a
    surrogate. *)
Definition unencodable (r : row) : bool := existsb value_has_surrogate r.

(** [writer.writerow(r)] on a file that is open.  Every script opens its
    file with [encoding="utf-8"]: the line of the row is encoded when it is
    written, and a surrogate in it raises UnicodeEncodeError.  The row is
    then not written; the rows written before it stay in the file. *)
Definition writerow (filename : str) (r : row) : M unit :=
  fun w =>
    if unencodable r then (w, Raised UnicodeEncodeError)
    else
      (World (fetched w) (console w)
             (<[filename := default [] (files w !! filename) ++ [r]]> (files w)),
       Done tt).

(** The answer to a GET: the status of the response and its body, decoded
    ([response.text]). *)
Record response : Type := Response { status_code : Z; text : str }.

(** The web, seen from the scripts: what a GET of a URL with given headers
    answers (a response of any status, or an exception of the transport),
    and the lenient parser [BeautifulSoup(text, "html.parser")], which is
    total. *)
Record web : Type := Web {
  http_get : str -> list (str * str) -> result response;
  html_parser : str -> node
}.

(** [session.get(url, headers=headers)] and [requests.get(url, headers)],
    followed by [.text].  No script looks at the status of the response
    or calls [raise_for_status]. *)
Definition requests_get (W : web) (url : str) (headers : list (str * str))
  : M str :=
  fun w => (World (fetched w ++ [url]) (console w) (files w),
            match http_get W url headers with
            | Return r => Done (text r)
            | Raise e => Raised e
            end).

Definition BeautifulSoup (W : web) (text : str) : element :=
  Element (html_parser W text) None.

(** The header set every script sends. *)
Definition user_agent_headers : list (str * str) :=
  [(py "User-Agent",
    py "Mozilla/5.0 (Windows NT 10.0; Win64; x64) AppleWebKit/537.36 (KHTML, like Gecko) Chrome/58.0.3029.110 Safari/537.3")].

(** [csv.DictWriter.writerow]: a key outside the field names is an error
    ([extrasaction='raise']); a missing one is written as [''] . *)
Definition dict_writerow (filename : str) (fieldnames : list str)
    (rowdict : record) : M unit :=
  if forallb (fun k => bool_decide (k ∈ fieldnames)) (dict_keys rowdict)
  then writerow filename
         (map (fun key => dict_get rowdict key (VStr [])) fieldnames)
  else lift (Raise ValueError).

(** [csv.DictWriter.writeheader] *)
Definition writeheader (filename : str) (fieldnames : list str) : M unit :=
  writerow filename (map VStr fieldnames).

(** [for item in data: writer.writerow(item)], also [writer.writerows(data)] *)
Fixpoint writerows (filename : str) (fieldnames : list str)
    (data : list record) : M unit :=
  match data with
  | [] => mret tt
  | item :: rest =>
      dict_writerow filename fieldnames item ≫= fun _ =>
      writerows filename fieldnames rest
  end.

(** [while next_url: data_page, next_url = body(next_url);
    data_list.extend(data_page)], then [data_list]. *)
Fixpoint crawl_loop (body : str -> M (list record * option str))
    (fuel : nat) (data_list : list record) (next_url : option str)
  : M (list record) :=
  match next_url with
  | Some url =>
      if str_truthy url then
        match fuel with
        | O => out_of_fuel
        | S fuel' =>
            body url ≫= fun '(data_page, next_url') =>
            crawl_loop body fuel' (data_list ++ data_page) next_url'
        end
      else mret data_list
  | None => mret data_list
  end.

End World.
Export World.

(** ** german_scraper_main.py *)

Module German.

(** The body of [for tr in tr_elements]: [None] is [continue], [Some data]
    is [data_list.append(data)]. *)
Definition row_data (tr : element) : result (option record) :=
  let tds := find_all tr (named (py "td")) in
  if (length tds <? 2)%nat then Return None
  else
    td0 ← py_index tds 0;
    let date := strip (get_text td0) in
    details_block ← py_index tds 1;
    let link_element := find details_block (named (py "a")) in
    let device :=
      match link_element with
      | Some a => strip (get_text a)
      | None => py "N/A"
      end in
    let strong_elements := find_all details_block (named (py "strong")) in
    types ←
      (if (2 <=? length strong_elements)%nat then
         s0 ← py_index strong_elements 0;
         device_type ← call_strip (next_sibling s0);
         s1 ← py_index strong_elements 1;
         device_reference ← call_strip (next_sibling s1);
         Return (device_type, device_reference)
       else Return (VStr (py "N/A"), VStr (py "N/A")));
    Return (Some [(py "date", VStr date);
                  (py "device", VStr device);
                  (py "device_type", types.1);
                  (py "device_reference", types.2)]).

(** The loop over the rows. *)
Fixpoint rows_data (tr_elements : list element) (data_list : list record)
  : result (list record) :=
  match tr_elements with
  | [] => Return data_list
  | tr :: rest =>
      d ← row_data tr;
      rows_data rest (match d with
                      | Some data => data_list ++ [data]
                      | None => data_list
                      end)
  end.

(** Lines 46 to 75: the records of a page. *)
Definition page_records (soup : element) : result (list record) :=
  rows_data (find_all soup (named (py "tr"))) [].

Definition is_forward (n : node) : bool :=
  named (py "li") n && has_class (py "c-navindex__item is-forward") n.

(** Lines 77 to 82: the next URL of a page. *)
Definition next_url_of (soup : element) : result (option str) :=
  li ← not_none (find soup is_forward);
  let next_link := find li (named (py "a")) in
  match next_link with
  | Some a => Return (get a (py "href"))
  | None => Return None
  end.

Section Script.
Variable W : web.

Definition get_data_page (url : str) : M (list record * option str) :=
  text ← requests_get W url user_agent_headers;
  let soup := BeautifulSoup W text in
  data_list ← lift (page_records soup);
  next_url ← lift (next_url_of soup);
  mret (data_list, next_url).

Definition get_data (fuel : nat) (start_url : str) : M (list record) :=
  crawl_loop
    (fun next_url =>
       print [PStr (py "Fetching data from page: " ++ next_url)] ≫= fun _ =>
       get_data_page next_url)
    fuel [] (Some start_url).

Definition write_to_csv (data : list record) (filename : str) : M unit :=
  print [PStr (py "Writing data to: " ++ filename)] ≫= fun _ =>
  open_w filename ≫= fun _ =>
  d0 ← lift (py_index data 0);
  let keys := dict_keys d0 in
  writeheader filename keys ≫= fun _ =>
  writerows filename keys data.

Definition start_url : str :=
  py "http://www.bfarm.de/EN/Medical-devices/Tasks/Risk-assessment-and-research/Field-corrective-actions/_node.html".

Definition main (fuel : nat) : M unit :=
  print [PStr (py "Starting the data collection process...")] ≫= fun _ =>
  data ← get_data fuel start_url;
  if list_truthy data then
    print [PStr (py "Writing the collected data to a CSV file...")] ≫= fun _ =>
    write_to_csv data (py "devices_data.csv")
  else print [PStr (py "No data collected.")].

End Script.
End German.

(** ** dutch_scraper_main.py *)

Module Dutch.

Definition is_publication (n : node) : bool :=
  named (py "a") n && has_class (py "publication") n.

Definition is_meta (n : node) : bool :=
  named (py "p") n && has_class (py "meta") n.

(** The body of [for link in link_elements]. *)
Definition link_data (link : element) : result record :=
  h3 ← not_none (find link (named (py "h3")));
  let title := strip (get_text h3) in
  p ← not_none (find link (named (py "p")));
  let warning_text := strip (get_text p) in
  meta ← not_none (find link is_meta);
  last ← py_index (split 124 (strip (get_text meta))) (-1);
  let date := strip last in
  Return [(py "title", VStr title);
          (py "warning_text", VStr warning_text);
          (py "date", VStr date)].

Fixpoint links_data (link_elements : list element) (data_list : list record)
  : result (list record) :=
  match link_elements with
  | [] => Return data_list
  | link :: rest =>
      data ← link_data link;
      links_data rest (data_list ++ [data])
  end.

(** Lines 48 to 63: the records of a page. *)
Definition page_records (soup : element) : result (list record) :=
  links_data (find_all soup is_publication) [].

Definition is_next (n : node) : bool :=
  named (py "li") n && has_class (py "paging__unit paging__unit--next") n.

(** Lines 65 to 77: the next URL of a page, with its diagnostics. *)
Definition next_url_of (soup : element) : M (option str) :=
  match find soup is_next with
  | Some next_link_element =>
      match find next_link_element (named (py "a")) with
      | Some next_link =>
          let next_url := get next_link (py "href") in
          print [PStr (py "Next URL found:"); obj_of next_url] ≫= fun _ =>
          mret next_url
      | None =>
          print [PStr (py "No <a> tag found in the next link element.")]
            ≫= fun _ => mret None
      end
  | None =>
      print [PStr (py "No next link element found.")] ≫= fun _ => mret None
  end.

Section Script.
Variable W : web.

Definition get_data_page (url : str) : M (list record * option str) :=
  try_except
    (text ← requests_get W url user_agent_headers;
     let soup := BeautifulSoup W text in
     data_list ← lift (page_records soup);
     next_url ← next_url_of soup;
     mret (data_list, next_url))
    (fun e =>
       print [PStr (py "Error occurred: "); PExn e] ≫= fun _ =>
       mret ([], None)).

Definition get_data (fuel : nat) (start_url : str) : M (list record) :=
  crawl_loop
    (fun next_url =>
       print [PStr (py "Fetching data from page: " ++ next_url)] ≫= fun _ =>
       get_data_page next_url)
    fuel [] (Some start_url).

Definition write_to_csv (data : list record) (filename : str) : M unit :=
  print [PStr (py "Writing data to: " ++ filename)] ≫= fun _ =>
  open_w filename ≫= fun _ =>
  d0 ← lift (py_index data 0);
  let keys := dict_keys d0 in
  writeheader filename keys ≫= fun _ =>
  writerows filename keys data.

Definition start_url : str :=
  py "https://www.igj.nl/onderwerpen/waarschuwingen-medische-hulpmiddelen/documenten?trefwoord=&startdatum=01-01-2013&einddatum=&onderwerp=Alle+onderwerpen&onderdeel=Alle+onderdelen&type=Alle+publicaties".

(** The statements at the top level of the script. *)
Definition script (fuel : nat) : M unit :=
  data ← get_data fuel start_url;
  write_to_csv data (py "devices_data.csv").

End Script.
End Dutch.

(** ** italy_scraper_main.py *)

Module Italy.

Definition is_table (n : node) : bool :=
  named (py "table") n && has_class (py "some_class") n.

(** The body of [for row in rows[1:]]. *)
Definition row_data (row : element) : result record :=
  let cols := find_all row (named (py "td")) in
  c0 ← py_index cols 0;
  Return [(py "column_1", VStr (remove_surrogates (strip (get_text c0))))].

Fixpoint rows_data (rows : list element) (data : list record)
  : result (list record) :=
  match rows with
  | [] => Return data
  | row :: rest =>
      record ← row_data row;
      rows_data rest (data ++ [record])
  end.

Definition scrape_page (soup : element) : result (list record) :=
  match find soup is_table with
  | Some table =>
      let rows := find_all table (named (py "tr")) in
      rows_data (drop 1 rows) []
  | None => Return []
  end.

Definition get_next_page (soup : element) : option str :=
  let next_page_element :=
    find soup (fun n => named (py "a") n
                        && has_attr (py "title") (py "Next Page") n) in
  match next_page_element with
  | Some a => get a (py "href")
  | None => None
  end.

Section Script.
Variable W : web.

Definition get_page (url : str) (headers : list (str * str)) : M element :=
  text ← requests_get W url headers;
  mret (BeautifulSoup W text).

Definition save_to_csv (data : list record) (filename : str) : M unit :=
  if list_truthy data then
    d0 ← lift (py_index data 0);
    let keys := dict_keys d0 in
    open_w filename ≫= fun _ =>
    writeheader filename keys ≫= fun _ =>
    writerows filename keys data
  else print [PStr (py "No data to write to CSV.")].

Definition base_url : str := py "http://example.com/some_page".

(** The loop of [main]. *)
Definition main_loop (fuel : nat) (start : str) : M (list record) :=
  crawl_loop
    (fun next_url =>
       soup ← get_page next_url user_agent_headers;
       data ← lift (scrape_page soup);
       mret (data, get_next_page soup))
    fuel [] (Some start).

Definition main (fuel : nat) : M unit :=
  all_data ← main_loop fuel base_url;
  save_to_csv all_data (py "unified_data.csv").

End Script.
End Italy.

(** ** The three variants side by side *)

Module Variants.

(** A: the list of links (Dutch).  B: the table (German).  C: the generic
    table (Italian). *)
Inductive variant : Type := A | B | C.

Definition root (n : node) : element := Element n None.

(** The elements a page repeats, one per record. *)
Definition repeating_elements (v : variant) (soup : element) : list element :=
  match v with
  | A => find_all soup Dutch.is_publication
  | B => find_all soup (named (py "tr"))
  | C => match find soup Italy.is_table with
         | Some table => drop 1 (find_all table (named (py "tr")))
         | None => []
         end
  end.

(** The record extractor of each script. *)
Definition extract (v : variant) (soup : element) : result (list record) :=
  match v with
  | A => Dutch.page_records soup
  | B => German.page_records soup
  | C => Italy.scrape_page soup
  end.

(** The crawl loop of each script. *)
Definition crawl (v : variant) (W : web) (fuel : nat) (start : str)
  : M (list record) :=
  match v with
  | A => Dutch.get_data W fuel start
  | B => German.get_data W fuel start
  | C => Italy.main_loop W fuel start
  end.

(** The element that carries the link to the next page. *)
Definition next_anchor (v : variant) (soup : element) : option element :=
  match v with
  | A => li ← find soup Dutch.is_next; find li (named (py "a"))
  | B => li ← find soup German.is_forward; find li (named (py "a"))
  | C => find soup (fun n => named (py "a") n
                             && has_attr (py "title") (py "Next Page") n)
  end.

(** The web answers [url] with the page [page]. *)
Definition serves (W : web) (url : str) (page : node) : Prop :=
  exists r, http_get W url user_agent_headers = Return r
            /\ html_parser W (text r) = page.

(** The page the web answers [url] with, if it answers. *)
Definition serves_page (W : web) (url : str) : option node :=
  match http_get W url user_agent_headers with
  | Return r => Some (html_parser W (text r))
  | Raise _ => None
  end.

(** The page yields its records and a link to [url']. *)
Definition resolves (v : variant) (page : node) (url' : str) : Prop :=
  (exists data, extract v (root page) = Return data)
  /\ exists a, next_anchor v (root page) = Some a
               /\ get a (py "href") = Some url'.

Definition to_outcome {A} (r : result A) : outcome A :=
  match r with Return a => Done a | Raise e => Raised e end.

(** What one pass of the loop makes of a page that was fetched: the German
    and Italian scripts let an exception of the extractor or of the resolver
    through, the Dutch one turns it into "no records, no next URL". *)
Definition page_outcome (v : variant) (soup : element)
  : result (list record * option str) :=
  match v with
  | A =>
      match Dutch.page_records soup with
      | Return data => Return (data, a ← next_anchor A soup; get a (py "href"))
      | Raise _ => Return ([], None)
      end
  | B =>
      data ← German.page_records soup;
      next_url ← German.next_url_of soup;
      Return (data, next_url)
  | C =>
      data ← Italy.scrape_page soup;
      Return (data, Italy.get_next_page soup)
  end.

(** The loop body of each script. *)
Definition loop_body (v : variant) (W : web) (next_url : str)
  : M (list record * option str) :=
  match v with
  | A => print [PStr (py "Fetching data from page: " ++ next_url)] ≫= fun _ =>
         Dutch.get_data_page W next_url
  | B => print [PStr (py "Fetching data from page: " ++ next_url)] ≫= fun _ =>
         German.get_data_page W next_url
  | C => soup ← Italy.get_page W next_url user_agent_headers;
         data ← lift (Italy.scrape_page soup);
         mret (data, Italy.get_next_page soup)
  end.

(** The string node right after an element, if there is one. *)
Definition following_text (e : element) : option str :=
  match next_sibling e with
  | Some (NavigableString _ s) => Some s
  | _ => None
  end.

(** The record of the German script, field by field. *)
Definition german_fields (date device : str)
    (device_type device_reference : value) : record :=
  [(py "date", VStr date);
   (py "device", VStr device);
   (py "device_type", device_type);
   (py "device_reference", device_reference)].

(** The trimmed text of the first anchor of a cell, or the sentinel. *)
Definition anchor_text_or_na (cell : element) : str :=
  match find cell (named (py "a")) with
  | Some a => strip (get_text a)
  | None => py "N/A"
  end.


(** The field names of the records of each script, in key order. *)
Definition fields (v : variant) : list str :=
  match v with
  | A => [py "title"; py "warning_text"; py "date"]
  | B => [py "date"; py "device"; py "device_type"; py "device_reference"]
  | C => [py "column_1"]
  end.

(** Every record of [data] has the field names of [d0]. *)
Definition same_fields (d0 : record) (data : list record) : Prop :=
  Forall (fun d => forall k, k ∈ dict_keys d <-> k ∈ dict_keys d0) data.

(** A record the output file can hold: no field name and no value of it
    holds a surrogate. *)
Definition encodable (d : record) : bool :=
  forallb (fun kv => negb (has_surrogate kv.1)
                     && negb (value_has_surrogate kv.2)) d.

(** The row of a record under field names: a missing value is [''] . *)
Definition row_of (fieldnames : list str) (d : record) : row :=
  map (fun key => dict_get d key (VStr [])) fieldnames.

(** The rows that reach the file: those before the first row that cannot
    be encoded. *)
Fixpoint written (rows : list row) : list row :=
  match rows with
  | [] => []
  | r :: rest => if unencodable r then [] else r :: written rest
  end.

(** How writing rows ends: normally, or with the exception of the first
    row that cannot be encoded. *)
Definition write_outcome (rows : list row) : outcome unit :=
  if forallb (fun r => negb (unencodable r)) rows then Done tt
  else Raised UnicodeEncodeError.

(** The rows [csv.DictWriter] writes for [data] under the field names of
    [d0]: the header, then one row per record. *)
Definition table_of (d0 : record) (data : list record) : list row :=
  map VStr (dict_keys d0)
  :: map (fun d => map (fun key => dict_get d key (VStr [])) (dict_keys d0))
         data.

(** The records of earlier pages before the end of the crawl. *)
Definition prepend (data : list record) (r : result (list record))
  : result (list record) :=
  match r with
  | Return rest => Return (data ++ rest)
  | Raise e => Raise e
  end.

Section Runs.
Variable body : str -> M (list record * option str).

(** One pass on [url]: one GET of [url], lines on the console, no file
    touched, and the outcome [o]. *)
Definition fetches_once (url : str) (o : result (list record * option str))
  : Prop :=
  forall w, exists c,
    body url w = (World (fetched w ++ [url]) c (files w), to_outcome o).

(** The passes of a crawl from [url]: the URLs requested, in order, and how
    it ends. *)
Inductive run : str -> list str -> result (list record) -> Prop :=
  | run_stop url data next_url :
      str_truthy url = true ->
      fetches_once url (Return (data, next_url)) ->
      truthy next_url = false ->
      run url [url] (Return data)
  | run_raise url e :
      str_truthy url = true ->
      fetches_once url (Raise e) ->
      run url [url] (Raise e)
  | run_next url data url' trace r :
      str_truthy url = true ->
      fetches_once url (Return (data, Some url')) ->
      run url' trace r ->
      run url (url :: trace) (prepend data r).

End Runs.

End Variants.
Export Variants.

(** ** Sample pages *)

Module Fixtures.

Local Open Scope string_scope.

Definition txt (s : string) : node := NavigableString true (py s).
Definition tag (name : string) (contents : list node) : node :=
  Tag (py name) [] None contents.
Definition tag_class (name : string) (tokens : list string)
    (contents : list node) : node :=
  Tag (py name) [] (Some (map py tokens)) contents.
Definition anchor (href : string) (contents : list node) : node :=
  Tag (py "a") [(py "href", py href)] None contents.
Definition document (contents : list node) : node :=
  Tag (py "[document]") [] None contents.

(** A web of finitely many pages, each answered with the status [status]:
    the body of a page is its URL, and the parser looks the tree up; any
    other URL does not answer. *)
Definition web_with_status (status : Z) (pages : list (str * node)) : web :=
  Web (fun url _ => match assoc url pages with
                    | Some _ => Return (Response status url)
                    | None => Raise (RequestException (py "connection error"))
                    end)
      (fun text => match assoc text pages with
                   | Some n => n
                   | None => document []
                   end).

(** The same, every page answered with [200 OK]. *)
Definition web_of (pages : list (str * node)) : web :=
  web_with_status 200 pages.

(** A world where [devices_data.csv] is left from an earlier run. *)
Definition old_world : world :=
  World [] [] {[ py "devices_data.csv" := [[VStr (py "date")]; [VStr (py "old")]] ]}.

Definition empty_world : world := World [] [] ∅.

(** *** The Dutch layout *)

Definition publication (title warning meta : string) : node :=
  tag_class "a" ["publication"]
    [tag "h3" [txt title]; tag "p" [txt warning];
     tag_class "p" ["meta"] [txt meta]].

Definition dutch_next (href : string) : node :=
  tag "ul" [tag_class "li" ["paging__unit"; "paging__unit--next"]
              [anchor href [txt "Volgende"]]].

Definition dutch_page1 : node :=
  document [publication "Recall A" "text A" "Published | 2023-01-01";
            publication " Recall B " "text B" "Published | 2023-01-02";
            dutch_next "https://igj.example/page2"].

Definition dutch_page2 : node :=
  document [publication "Recall C" "text C" "2023-01-03"].

(** A publication without heading, between two complete ones. *)
Definition dutch_page_no_h3 : node :=
  document [publication "Recall A" "text A" "Published | 2023-01-01";
            tag_class "a" ["publication"]
              [tag "p" [txt "text B"]; tag_class "p" ["meta"] [txt "x | y"]];
            dutch_next "https://igj.example/page2"].

Definition dutch_empty_page : node := document [tag "p" [txt "Geen resultaten"]].

Definition dutch_web : web :=
  web_of [(Dutch.start_url, dutch_page1);
          (py "https://igj.example/page2", dutch_page2)].

Definition dutch_web_no_h3 : web :=
  web_of [(Dutch.start_url, dutch_page_no_h3);
          (py "https://igj.example/page2", dutch_page2)].


(** A start page without publication and without next link. *)
Definition dutch_web_empty : web := web_of [(Dutch.start_url, dutch_empty_page)].

(** A page whose next link is the page itself. *)
Definition dutch_self_page : node :=
  document [publication "Recall A" "text A" "Published | 2023-01-01";
            dutch_next "https://igj.example/loop"].

Definition dutch_self_web : web :=
  web_of [(py "https://igj.example/loop", dutch_self_page)].

(** A page whose next anchor has an empty [href]. *)
Definition dutch_empty_href_page : node :=
  document [publication "Recall A" "text A" "Published | 2023-01-01";
            dutch_next ""].

Definition dutch_empty_href_web : web :=
  web_of [(Dutch.start_url, dutch_empty_href_page)].

(** Records for the sink: two German records, and one whose device holds
    a lone surrogate. *)
Definition record_pump : record :=
  german_fields (py "2023-05-01") (py "Pump X")
    (VStr (py "Infusion")) (VStr (py "01234/23")).
Definition record_plain : record :=
  german_fields (py "2023-05-02") (py "N/A") (VStr (py "N/A")) (VStr (py "N/A")).
Definition record_april : record :=
  german_fields (py "2023-04-01") (py "Pump X")
    (VStr (py "Infusion")) (VStr (py "01234/23")).
Definition record_surrogate : record :=
  german_fields (py "2023-05-03") (py "Stent " ++ [0xD83D])%list
    (VStr (py "N/A")) (VStr (py "N/A")).

(** Records of different shapes for the sink. *)
Definition record_title : record := [(py "title", VStr (py "Recall A"))].
Definition record_title_note : record :=
  [(py "title", VStr (py "Recall B")); (py "note", VStr (py "x"))].
Definition record_title_date : record :=
  [(py "title", VStr (py "Recall A")); (py "date", VStr (py "2023"))].
Definition record_date : record := [(py "date", VStr (py "2024"))].


(** The Dutch start page alone: its next page does not answer. *)
Definition dutch_web_broken : web := web_of [(Dutch.start_url, dutch_page1)].

(** *** The German layout *)

Definition german_row (date : string) (details : list node) : node :=
  tag "tr" [tag "td" [txt date]; tag "td" details].

Definition german_details : list node :=
  [anchor "/doc1" [txt " Pump X "]; tag "br" [];
   tag "strong" [txt "Product group"]; txt " Infusion ";
   tag "strong" [txt "Reference"]; txt " 01234/23 "].

Definition german_forward (contents : list node) : node :=
  tag "ul" [Tag (py "li") [] (Some [py "c-navindex__item"; py "is-forward"])
              contents].

Definition german_page1 : node :=
  document [tag "table"
              [tag "tr" [tag "th" [txt "Date"]; tag "th" [txt "Device"]];
               german_row " 2023-05-01 " german_details;
               german_row "2023-05-02" [txt "no details"]];
            german_forward [anchor "http://bfarm.example/page2" [txt "next"]]].

(** A last page whose forward item is there without a link. *)
Definition german_page2 : node :=
  document [tag "table" [german_row "2023-04-01" german_details];
            german_forward [txt "next"]].

(** A last page without the forward item. *)
Definition german_page2_no_li : node :=
  document [tag "table" [german_row "2023-04-01" german_details]].

(** A row whose two bold elements follow each other, no text after them. *)
Definition german_row_bold_only : node :=
  german_row "2023-05-03"
    [anchor "/doc2" [txt "Stent Y"];
     tag "strong" [txt "Product group"]; tag "strong" [txt "Reference"]].


(** The rows above as the script holds them, with their two cells. *)
Definition german_tr_full : element :=
  Element (german_row " 2023-05-01 " german_details) None.
Definition german_tr_plain : element :=
  Element (german_row "2023-05-02" [txt "no details"]) None.
Definition german_tr_bold_only : element :=
  Element german_row_bold_only None.

Definition cells_of (date : string) (details : list node)
  : element * element :=
  (Element (tag "td" [txt date]) (Some (tag "td" details)),
   Element (tag "td" details) None).

Definition german_web : web :=
  web_of [(German.start_url, german_page1);
          (py "http://bfarm.example/page2", german_page2)].

Definition german_web_no_li : web :=
  web_of [(German.start_url, german_page1);
          (py "http://bfarm.example/page2", german_page2_no_li)].

Definition german_web_empty : web := web_of [(German.start_url, german_forward [])].


(** A single page whose second row has a lone surrogate in its first
    cell, as the parser makes of [&#xD83D;]. *)
Definition german_page_surrogate : node :=
  document [tag "table"
              [german_row " 2023-05-01 " german_details;
               tag "tr" [tag "td" [NavigableString true
                                     (py "2023-05-" ++ [0xD83D])%list];
                         tag "td" [txt "no details"]]];
            german_forward [txt "next"]].

Definition german_web_surrogate : web :=
  web_of [(German.start_url, german_page_surrogate)].

(** The German start page alone: its next page does not answer. *)
Definition german_web_broken : web := web_of [(German.start_url, german_page1)].

(** *** The Italian layout *)

Definition italy_table (rows : list node) : node :=
  tag_class "table" ["some_class"] rows.

Definition italy_next (href : string) : node :=
  Tag (py "a") [(py "title", py "Next Page"); (py "href", py href)] None
      [txt ">"].

Definition italy_page1 : node :=
  document [italy_table [tag "tr" [tag "th" [txt "Name"]];
                         tag "tr" [tag "td" [txt " Device 1 "]];
                         tag "tr" [tag "td" [NavigableString true
                                               (py "Dev" ++ [0xD83D] ++ py "2")%list]]];
            italy_next "http://example.com/page2"].

Definition italy_page2 : node :=
  document [italy_table [tag "tr" [tag "th" [txt "Name"]];
                         tag "tr" [tag "td" [txt "Device 3"]]]].



Definition italy_web : web :=
  web_of [(Italy.base_url, italy_page1);
          (py "http://example.com/page2", italy_page2)].


End Fixtures.

(** ** Vocabulary for the behaviour of the scripts *)

Module Behaviour.

(** What one repeated element gives: an exception, nothing ([continue]),
    or a record. *)
Definition element_record (v : variant) (e : element)
  : result (option record) :=
  match v with
  | A => d ← Dutch.link_data e; Return (Some d)
  | B => German.row_data e
  | C => d ← Italy.row_data e; Return (Some d)
  end.

(** The elements an extractor passes over: in the German script, the rows
    with fewer than two cells. *)
Definition skipped (v : variant) (e : element) : bool :=
  match v with
  | B => (length (find_all e (named (py "td"))) <? 2)%nat
  | _ => false
  end.

(** The loop the three extractors share: the records of the elements, in
    order, up to the first exception. *)
Fixpoint collect (f : element -> result (option record))
    (els : list element) (acc : list record) : result (list record) :=
  match els with
  | [] => Return acc
  | e :: rest =>
      o ← f e;
      collect f rest (match o with Some d => acc ++ [d] | None => acc end)
  end.

(** What the resolver of a page answers, when it answers. *)
Definition next_href (v : variant) (soup : element) : option str :=
  a ← next_anchor v soup; get a (py "href").

(** A string without white space at either end. *)
Definition trimmed (s : str) : Prop :=
  (forall c r, s = c :: r -> isspace c = false)
  /\ (forall c r, s = r ++ [c] -> isspace c = false).

(** A field that is a trimmed string (a result set is no string). *)
Definition field_trimmed (f : str * value) : Prop :=
  match f.2 with
  | VStr s => trimmed s
  | VResultSet _ => True
  end.

(** The part of a string after its last [sep], the whole string when it
    has none. *)
Fixpoint after_last (sep : Z) (s : str) : str :=
  match s with
  | [] => []
  | c :: r =>
      if existsb (Z.eqb sep) r then after_last sep r
      else if c =? sep then r else s
  end.

(** Pages that lead from [start] to [target]: each URL is non-empty and
    answered with its page, and each page yields its records and a link to
    the next URL, the last one to [target]. *)
Fixpoint leads_to (v : variant) (W : web) (start : str)
    (pages : list (str * node)) (target : str) : Prop :=
  match pages with
  | [] => start = target
  | (url, page) :: rest =>
      url = start /\ str_truthy url = true /\ serves W url page
      /\ exists url', resolves v page url' /\ leads_to v W url' rest target
  end.

(** The records of pages, in page order. *)
Definition pages_records (v : variant) (pages : list (str * node))
  : list record :=
  flat_map (fun up => match extract v (root up.2) with
                      | Return data => data
                      | Raise _ => []
                      end) pages.

(** What a sink leaves of the table [t] it has to write: the whole table,
    ending normally, or, when a row of [t] cannot be encoded, the rows
    before the first such row, ending with UnicodeEncodeError. *)
Definition sink_leaves (t content : list row) (o : outcome unit) : Prop :=
  (Forall (fun r => unencodable r = false) t /\ content = t /\ o = Done tt)
  \/ exists before r after,
       t = before ++ r :: after
       /\ Forall (fun r => unencodable r = false) before
       /\ unencodable r = true
       /\ content = before
       /\ o = Raised UnicodeEncodeError.

End Behaviour.
Export Behaviour.

(** ** Tactics *)

(** Replaces each comparison of integers in the goal by its truth value. *)
Ltac decide_tests :=
  repeat match goal with
  | |- context [?a <? ?b] =>
      first [ replace (a <? b) with true by (symmetry; apply Z.ltb_lt; lia)
            | replace (a <? b) with false by (symmetry; apply Z.ltb_ge; lia) ]
  | |- context [?a <=? ?b] =>
      first [ replace (a <=? b) with true by (symmetry; apply Z.leb_le; lia)
            | replace (a <=? b) with false by (symmetry; apply Z.leb_gt; lia) ]
  | |- context [?a =? ?b] =>
      first [ replace (a =? b) with true by (symmetry; apply Z.eqb_eq; lia)
            | replace (a =? b) with false by (symmetry; apply Z.eqb_neq; lia) ]
  end.

(** Turns boolean tests among the hypotheses into (in)equalities. *)
Ltac tests_to_Z :=
  repeat match goal with
  | H : _ || _ = false |- _ => apply orb_false_iff in H; destruct H
  | H : _ && _ = true |- _ => apply andb_true_iff in H; destruct H
  | H : negb _ = false |- _ => apply negb_false_iff in H
  | H : negb _ = true |- _ => apply negb_true_iff in H
  | H : (_ <? _) = true |- _ => apply Z.ltb_lt in H
  | H : (_ <? _) = false |- _ => apply Z.ltb_ge in H
  | H : (_ <=? _) = true |- _ => apply Z.leb_le in H
  | H : (_ <=? _) = false |- _ => apply Z.leb_gt in H
  | H : (_ =? _) = true |- _ => apply Z.eqb_eq in H
  | H : (_ =? _) = false |- _ => apply Z.eqb_neq in H
  | H : (if ?c then _ else _) = false |- _ => destruct c eqn:?
  end.

(** Closes a conjunction of equations between closed terms by evaluation. *)
Ltac compute_each :=
  lazymatch goal with
  | |- _ /\ _ => split; [compute_each | compute_each]
  | |- _ => vm_compute; reflexivity
  end.

(** The fixture web serves a page under its URL. *)
Ltac serve_page url :=
  exists (Response 200 url); split; vm_compute; reflexivity.

(** A fixture page yields its records and its link, by evaluation. *)
Ltac resolve_link :=
  split; [eexists; lazy; reflexivity
         | eexists; split; lazy; reflexivity].

(** Case analysis on every scrutinee of the computation in [H]. *)
Ltac split_result H :=
  repeat (match type of H with
          | context [match ?x with _ => _ end] => destruct x eqn:?
          end; try discriminate H).

(** * Properties *)

(** ** The codec *)

(** A boolean property checked on every integer of a range holds on it. *)
Lemma range_forallb (P : Z -> bool) (lo : Z) (n : nat) :
  forallb P (map (fun i => lo + Z.of_nat i) (seq 0 n)) = true ->
  forall x, lo <= x < lo + Z.of_nat n -> P x = true.
Proof.
  intros H x Hx.
  rewrite forallb_forall in H. apply H.
  apply in_map_iff. exists (Z.to_nat (x - lo)). split; [lia|].
  apply in_seq. lia.
Qed.

Lemma lor_80 q : 0 <= q < 64 -> Z.lor 0x80 q = 0x80 + q.
Proof.
  intros H. apply Z.eqb_eq.
  apply (range_forallb (fun q => Z.lor 0x80 q =? 0x80 + q) 0 64); [reflexivity | lia].
Qed.

Lemma lor_C0 q : 0 <= q < 32 -> Z.lor 0xC0 q = 0xC0 + q.
Proof.
  intros H. apply Z.eqb_eq.
  apply (range_forallb (fun q => Z.lor 0xC0 q =? 0xC0 + q) 0 32); [reflexivity | lia].
Qed.

Lemma lor_E0 q : 0 <= q < 16 -> Z.lor 0xE0 q = 0xE0 + q.
Proof.
  intros H. apply Z.eqb_eq.
  apply (range_forallb (fun q => Z.lor 0xE0 q =? 0xE0 + q) 0 16); [reflexivity | lia].
Qed.

Lemma lor_F0 q : 0 <= q < 8 -> Z.lor 0xF0 q = 0xF0 + q.
Proof.
  intros H. apply Z.eqb_eq.
  apply (range_forallb (fun q => Z.lor 0xF0 q =? 0xF0 + q) 0 8); [reflexivity | lia].
Qed.

Lemma land_3F x : Z.land x 0x3F = x mod 64.
Proof. change 0x3F with (Z.ones 6). rewrite Z.land_ones by lia. reflexivity. Qed.

Lemma shiftr_div x n : 0 <= n -> Z.shiftr x n = x / 2 ^ n.
Proof. apply Z.shiftr_div_pow2. Qed.

Lemma decode_ascii c rest :
  c < 0x80 -> decode_ignore (c :: rest) = c :: decode_ignore rest.
Proof. intros H. cbn [decode_ignore]. decide_tests. reflexivity. Qed.

Lemma decode_bad_start b rest :
  0x80 <= b < 0xC2 \/ 0xF5 <= b -> decode_ignore (b :: rest) = decode_ignore rest.
Proof.
  intros H. cbn [decode_ignore].
  destruct H as [H|H]; decide_tests; reflexivity.
Qed.

Lemma decode_two b0 b1 rest :
  0xC2 <= b0 < 0xE0 -> 0x80 <= b1 < 0xC0 ->
  decode_ignore (b0 :: b1 :: rest)
  = (64 * b0 + b1 - 0x3080) :: decode_ignore rest.
Proof.
  intros H0 H1. cbn [decode_ignore]. unfold is_continuation.
  decide_tests. cbn [negb andb]. f_equal.
  rewrite !Z.shiftl_mul_pow2 by lia. lia.
Qed.

Lemma decode_three b0 b1 b2 rest :
  0xE0 <= b0 < 0xF0 -> 0x80 <= b1 < 0xC0 -> 0x80 <= b2 < 0xC0 ->
  (b0 = 0xE0 -> 0xA0 <= b1) -> (b0 = 0xED -> b1 < 0xA0) ->
  decode_ignore (b0 :: b1 :: b2 :: rest)
  = (4096 * b0 + 64 * b1 + b2 - 0xE2080) :: decode_ignore rest.
Proof.
  intros H0 H1 H2 HE0 HED. cbn [decode_ignore]. unfold is_continuation.
  assert (Hc : (if b1 <? 0xA0 then b0 =? 0xE0 else b0 =? 0xED) = false).
  { destruct (Z.ltb_spec b1 0xA0); apply Z.eqb_neq; lia. }
  rewrite Hc. decide_tests. cbn [negb andb orb]. f_equal.
  rewrite !Z.shiftl_mul_pow2 by lia. lia.
Qed.

Lemma decode_four b0 b1 b2 b3 rest :
  0xF0 <= b0 < 0xF5 -> 0x80 <= b1 < 0xC0 -> 0x80 <= b2 < 0xC0 ->
  0x80 <= b3 < 0xC0 ->
  (b0 = 0xF0 -> 0x90 <= b1) -> (b0 = 0xF4 -> b1 < 0x90) ->
  decode_ignore (b0 :: b1 :: b2 :: b3 :: rest)
  = (262144 * b0 + 4096 * b1 + 64 * b2 + b3 - 0x3C82080) :: decode_ignore rest.
Proof.
  intros H0 H1 H2 H3 HF0 HF4. cbn [decode_ignore]. unfold is_continuation.
  assert (Hc : (if b1 <? 0x90 then b0 =? 0xF0 else b0 =? 0xF4) = false).
  { destruct (Z.ltb_spec b1 0x90); apply Z.eqb_neq; lia. }
  rewrite Hc. decide_tests. cbn [negb andb orb]. f_equal.
  rewrite !Z.shiftl_mul_pow2 by lia. lia.
Qed.

(** The three bytes of a surrogate are dropped one after the other: the
    lead byte 0xED as an invalid continuation, the two others as invalid
    start bytes. *)
Lemma decode_surrogate_bytes b1 b2 rest :
  0xA0 <= b1 < 0xC0 -> 0x80 <= b2 < 0xC0 ->
  decode_ignore (0xED :: b1 :: b2 :: rest) = decode_ignore rest.
Proof.
  intros H1 H2.
  transitivity (decode_ignore (b1 :: b2 :: rest)).
  - cbn [decode_ignore]. unfold is_continuation.
    change (0xED <? 0x80) with false. change (0xED <? 0xE0) with false.
    change (0xED <? 0xF0) with true. change (0xED =? 0xED) with true.
    cbv iota. decide_tests. cbn [negb andb orb]. reflexivity.
  - rewrite !decode_bad_start by lia. reflexivity.
Qed.

Lemma encode_decode_stable c rest :
  stable c -> decode_ignore (encode_cp c ++ rest) = c :: decode_ignore rest.
Proof.
  intros Hc. unfold encode_cp, is_surrogate.
  destruct (c <? 0x80) eqn:H1; tests_to_Z.
  { apply decode_ascii. lia. }
  assert (Hs : 0x80 <= c < 0xD800 \/ 0xE000 <= c < 0x110000)
    by (unfold stable in Hc; lia).
  clear Hc.
  rewrite !land_3F, !shiftr_div by lia.
  destruct (c <? 0x800) eqn:H2; tests_to_Z.
  { change (2 ^ 6) with 64.
    rewrite lor_C0, lor_80 by (Z.to_euclidean_division_equations; lia).
    cbn [app]. rewrite decode_two by (Z.to_euclidean_division_equations; lia).
    f_equal. Z.to_euclidean_division_equations; lia. }
  destruct ((0xD800 <=? c) && (c <=? 0xDFFF)) eqn:H3.
  { tests_to_Z. lia. }
  assert (Hns : c < 0xD800 \/ 0xE000 <= c).
  { apply andb_false_iff in H3. destruct H3; tests_to_Z; lia. }
  clear H3.
  change (2 ^ 6) with 64. change (2 ^ 12) with 4096. change (2 ^ 18) with 262144.
  destruct (c <? 0x10000) eqn:H4; tests_to_Z.
  { rewrite lor_E0, !lor_80 by (Z.to_euclidean_division_equations; lia).
    cbn [app].
    rewrite decode_three by (Z.to_euclidean_division_equations; lia).
    f_equal. Z.to_euclidean_division_equations; lia. }
  rewrite lor_F0, !lor_80 by (Z.to_euclidean_division_equations; lia).
  cbn [app].
  rewrite decode_four by (Z.to_euclidean_division_equations; lia).
  f_equal. Z.to_euclidean_division_equations; lia.
Qed.

Lemma encode_decode_surrogate c rest :
  is_surrogate c = true -> decode_ignore (encode_cp c ++ rest) = decode_ignore rest.
Proof.
  intros Hc. unfold encode_cp. rewrite Hc.
  unfold is_surrogate in Hc. tests_to_Z.
  decide_tests.
  rewrite !land_3F, !shiftr_div by lia.
  change (2 ^ 6) with 64. change (2 ^ 12) with 4096.
  rewrite lor_E0, !lor_80 by (Z.to_euclidean_division_equations; lia).
  replace (c / 4096) with 13 by (Z.to_euclidean_division_equations; lia).
  cbn [app]. change (0xE0 + 13) with 0xED.
  apply decode_surrogate_bytes; Z.to_euclidean_division_equations; lia.
Qed.

(** Whatever the bytes, the decoder only produces stable code points. *)
Lemma decode_ignore_stable_upto (n : nat) :
  forall s : list Z, (length s <= n)%nat -> Forall stable (decode_ignore s).
Proof.
  induction n as [|n IH]; intros s Hlen.
  { destruct s; [constructor | simpl in Hlen; lia]. }
  destruct s as [|b0 s1]; [constructor|].
  assert (IH1 : Forall stable (decode_ignore s1))
    by (apply IH; cbn [length] in *; lia).
  cbn [decode_ignore].
  destruct (b0 <? 0x80) eqn:T0; tests_to_Z.
  { constructor; [left; lia | exact IH1]. }
  destruct (b0 <? 0xE0) eqn:T1; tests_to_Z.
  { destruct (b0 <? 0xC2) eqn:T2; tests_to_Z; [exact IH1|].
    destruct s1 as [|b1 s2]; [constructor|].
    destruct (negb (is_continuation b1)) eqn:C1; [exact IH1|].
    unfold is_continuation in C1. tests_to_Z.
    constructor.
    - right; left. rewrite !Z.shiftl_mul_pow2 by lia. lia.
    - apply IH. cbn [length] in *. lia. }
  destruct (b0 <? 0xF0) eqn:T3; tests_to_Z.
  { destruct s1 as [|b1 s2]; [constructor|].
    destruct (negb (is_continuation b1)
              || (if b1 <? 0xA0 then b0 =? 0xE0 else b0 =? 0xED)) eqn:C1;
      [exact IH1|].
    destruct s2 as [|b2 s3]; [constructor|].
    destruct (negb (is_continuation b2)) eqn:C2.
    { apply IH. cbn [length] in *. lia. }
    unfold is_continuation in C1, C2. tests_to_Z.
    - constructor; [|apply IH; cbn [length] in *; lia].
      rewrite !Z.shiftl_mul_pow2 by lia. red. lia.
    - constructor; [|apply IH; cbn [length] in *; lia].
      rewrite !Z.shiftl_mul_pow2 by lia. red. lia. }
  destruct (b0 <? 0xF5) eqn:T4; tests_to_Z; [|exact IH1].
  destruct s1 as [|b1 s2]; [constructor|].
  destruct (negb (is_continuation b1)
            || (if b1 <? 0x90 then b0 =? 0xF0 else b0 =? 0xF4)) eqn:C1;
    [exact IH1|].
  destruct s2 as [|b2 s3]; [constructor|].
  destruct (negb (is_continuation b2)) eqn:C2.
  { apply IH. cbn [length] in *. lia. }
  destruct s3 as [|b3 s4]; [constructor|].
  destruct (negb (is_continuation b3)) eqn:C3.
  { apply IH. cbn [length] in *. lia. }
  unfold is_continuation in C1, C2, C3. tests_to_Z.
  - constructor; [|apply IH; cbn [length] in *; lia].
    rewrite !Z.shiftl_mul_pow2 by lia. red. lia.
  - constructor; [|apply IH; cbn [length] in *; lia].
    rewrite !Z.shiftl_mul_pow2 by lia. red. lia.
Qed.

Lemma decode_ignore_stable (s : list Z) : Forall stable (decode_ignore s).
Proof. apply (decode_ignore_stable_upto (length s)). lia. Qed.

(** A string of stable code points is left as it is. *)
Lemma remove_surrogates_stable (text : str) :
  Forall stable text -> remove_surrogates text = text.
Proof.
  unfold remove_surrogates, encode_surrogatepass.
  induction 1 as [|c text Hc _ IH]; [reflexivity|].
  cbn [flat_map]. rewrite encode_decode_stable by exact Hc.
  f_equal. exact IH.
Qed.

Lemma stable_not_surrogate (c : Z) : stable c -> is_surrogate c = false.
Proof.
  unfold stable, is_surrogate. intros H.
  destruct (0xD800 <=? c) eqn:H1; [|reflexivity].
  destruct (c <=? 0xDFFF) eqn:H2; [|reflexivity].
  tests_to_Z. lia.
Qed.

Lemma remove_surrogates_clean (text : str) :
  Forall (fun c => is_surrogate c = false) (remove_surrogates text).
Proof.
  unfold remove_surrogates.
  pose proof (decode_ignore_stable (encode_surrogatepass text)) as H.
  induction H as [|c l Hc _ IH]; constructor;
    [apply stable_not_surrogate; exact Hc|exact IH].
Qed.

(** What [remove_surrogates] returns can be encoded. *)
Lemma remove_surrogates_encodable (text : str) :
  has_surrogate (remove_surrogates text) = false.
Proof.
  unfold has_surrogate.
  induction (remove_surrogates_clean text) as [|c l Hc _ IH]; [reflexivity|].
  cbn [existsb]. rewrite Hc, IH. reflexivity.
Qed.

(** X1. On a Python string the function is what its docstring says: the
    lone surrogates are removed and nothing else changes. *)
Lemma remove_surrogates_filter (text : str) :
  Forall is_code_point text ->
  remove_surrogates text = List.filter (fun c => negb (is_surrogate c)) text.
Proof.
  unfold remove_surrogates, encode_surrogatepass.
  induction 1 as [|c text Hc _ IH]; [reflexivity|].
  cbn [flat_map List.filter].
  destruct (is_surrogate c) eqn:Hs; cbn [negb].
  - rewrite encode_decode_surrogate by exact Hs. exact IH.
  - rewrite encode_decode_stable; [f_equal; exact IH|].
    unfold is_code_point in Hc. unfold is_surrogate in Hs.
    apply andb_false_iff in Hs. unfold stable.
    destruct Hs; tests_to_Z; lia.
Qed.

(** C10. Stripping surrogates twice is the same as stripping them once:
    [remove_surrogates (remove_surrogates s) = remove_surrogates s] for
    every string [s]. *)
Theorem remove_surrogates_idempotent (s : str) :
  remove_surrogates (remove_surrogates s) = remove_surrogates s.
Proof.
  apply remove_surrogates_stable.
  unfold remove_surrogates at 1. apply decode_ignore_stable.
Qed.

(** ** Sequences *)

Lemma py_index_0 {A} (x : A) (l : list A) : py_index (x :: l) 0 = Return x.
Proof.
  unfold py_index. cbn [length]. change (0 <? 0) with false. cbv iota.
  change (0 <=? 0) with true.
  replace (0 <? Z.of_nat (S (length l))) with true
    by (symmetry; apply Z.ltb_lt; lia).
  reflexivity.
Qed.

Lemma py_index_1 {A} (x y : A) (l : list A) :
  py_index (x :: y :: l) 1 = Return y.
Proof.
  unfold py_index. cbn [length]. change (1 <? 0) with false. cbv iota.
  change (0 <=? 1) with true.
  replace (1 <? Z.of_nat (S (S (length l)))) with true
    by (symmetry; apply Z.ltb_lt; lia).
  reflexivity.
Qed.


(** ** Rows and pages *)

Lemma german_row_short (tr : element) :
  (length (find_all tr (named (py "td"))) < 2)%nat ->
  German.row_data tr = Return None.
Proof.
  intros H. unfold German.row_data.
  apply Nat.ltb_lt in H. rewrite H. reflexivity.
Qed.

(** C6. A table row with fewer than two cells is left out by the German
    extractor: the row gives no record, and the loop over the rows gives
    what it gives without that row. *)
Theorem german_short_row_excluded (tr : element) :
  (length (find_all tr (named (py "td"))) < 2)%nat ->
  German.row_data tr = Return None
  /\ forall (before after : list element) (data_list : list record),
       German.rows_data (before ++ tr :: after) data_list
       = German.rows_data (before ++ after) data_list.
Proof.
  intros H. pose proof (german_row_short tr H) as Hrow.
  split; [exact Hrow|].
  intros before. induction before as [|tr' before IH]; intros after data_list.
  - cbn [app German.rows_data]. rewrite Hrow. reflexivity.
  - cbn [app German.rows_data].
    destruct (German.row_data tr') as [[d|]|e]; cbn; auto.
Qed.

Lemma german_short_row_witness :
  let header := Element (Fixtures.tag "tr" [Fixtures.tag "th" [Fixtures.txt "Date"]]) None in
  German.row_data header = Return None.
Proof.
  intros header.
  apply (german_short_row_excluded header). vm_compute. lia.
Defined.

(** C7. A page without any of the elements its layout repeats gives the
    empty list of records, in each script, and no exception. *)
Theorem extract_no_repeating_elements (v : variant) (soup : element) :
  repeating_elements v soup = [] -> extract v soup = Return [].
Proof.
  destruct v; cbn [repeating_elements extract].
  - intros H. unfold Dutch.page_records. rewrite H. reflexivity.
  - intros H. unfold German.page_records. rewrite H. reflexivity.
  - unfold Italy.scrape_page. destruct (find soup Italy.is_table); [|reflexivity].
    intros H. rewrite H. reflexivity.
Qed.

Lemma extract_no_repeating_elements_witness :
  extract A (root Fixtures.dutch_empty_page) = Return []
  /\ extract B (root Fixtures.dutch_empty_page) = Return []
  /\ extract C (root Fixtures.dutch_empty_page) = Return [].
Proof.
  split; [|split].
  - apply (extract_no_repeating_elements A). vm_compute. reflexivity.
  - apply (extract_no_repeating_elements B). vm_compute. reflexivity.
  - apply (extract_no_repeating_elements C). vm_compute. reflexivity.
Defined.

(** ** The crawl loop *)

Section CrawlLoop.
Variable body : str -> M (list record * option str).

Lemma crawl_loop_falsy (fuel : nat) (data : list record) (next_url : option str) :
  truthy next_url = false -> crawl_loop body fuel data next_url = mret data.
Proof.
  intros H. destruct next_url as [url|]; destruct fuel; cbn in *;
    try rewrite H; reflexivity.
Qed.

Lemma crawl_loop_step (fuel : nat) (data : list record) (url : str) (w : world) :
  str_truthy url = true ->
  crawl_loop body (S fuel) data (Some url) w
  = match body url w with
    | (w', Done (data_page, next_url)) =>
        crawl_loop body fuel (data ++ data_page) next_url w'
    | (w', Raised e) => (w', Raised e)
    | (w', OutOfFuel) => (w', OutOfFuel)
    end.
Proof.
  intros H. cbn [crawl_loop]. rewrite H. unfold mbind, M_bind.
  destruct (body url w) as [w' [[d n]|e|]]; reflexivity.
Qed.

(** What holds of the records of every pass holds of the records of the
    crawl. *)
Lemma crawl_loop_invariant (P : record -> Prop) :
  (forall url w w1 d n, body url w = (w1, Done (d, n)) -> Forall P d) ->
  forall (fuel : nat) (acc : list record) (next_url : option str)
         (w w' : world) (data : list record),
    Forall P acc ->
    crawl_loop body fuel acc next_url w = (w', Done data) ->
    Forall P data.
Proof.
  intros Hbody. induction fuel as [|fuel IH]; intros acc next_url w w' data Hacc H.
  - destruct next_url as [url|]; cbn [crawl_loop] in H;
      [destruct (str_truthy url)|]; inversion H; subst; exact Hacc.
  - destruct next_url as [url|]; [|inversion H; subst; exact Hacc].
    destruct (str_truthy url) eqn:Hu.
    + rewrite crawl_loop_step in H by exact Hu.
      destruct (body url w) as [w1 [[d n]|e|]] eqn:Hb;
        [|discriminate|discriminate].
      apply (IH _ _ _ _ _ (Forall_app_2 _ _ _ Hacc (Hbody _ _ _ _ _ Hb)) H).
    + cbn [crawl_loop] in H. rewrite Hu in H. inversion H; subst. exact Hacc.
Qed.

(** A crawl whose passes are given goes through them, with fuel for each:
    it requests their URLs, in order, touches no file and ends as they do. *)
Lemma crawl_loop_run (url : str) (trace : list str) (r : result (list record)) :
  run body url trace r ->
  forall (fuel : nat) (data : list record) (w : world),
    (length trace <= fuel)%nat ->
    exists c,
      crawl_loop body fuel data (Some url) w
      = (World (fetched w ++ trace) c (files w),
         to_outcome (prepend data r)).
Proof.
  induction 1 as [url d nxt Hu Hb Hn | url e Hu Hb | url d url' trace r Hu Hb Hrun IH];
    intros fuel data w Hfuel.
  - destruct fuel as [|fuel]; [cbn in Hfuel; lia|].
    destruct (Hb w) as [c Hc].
    rewrite crawl_loop_step, Hc by exact Hu. cbn [to_outcome].
    rewrite crawl_loop_falsy by exact Hn.
    exists c. reflexivity.
  - destruct fuel as [|fuel]; [cbn in Hfuel; lia|].
    destruct (Hb w) as [c Hc].
    rewrite crawl_loop_step, Hc by exact Hu.
    exists c. reflexivity.
  - destruct fuel as [|fuel]; [cbn in Hfuel; lia|].
    destruct (Hb w) as [c Hc].
    rewrite crawl_loop_step, Hc by exact Hu. cbn [to_outcome].
    destruct (IH fuel (data ++ d) (World (fetched w ++ [url]) c (files w)))
      as [c' Hc']; [cbn in Hfuel; lia|].
    rewrite Hc'. cbn [fetched files]. exists c'.
    rewrite <- app_assoc. cbn [app].
    destruct r as [rest|e']; cbn [prepend to_outcome];
      [rewrite app_assoc|]; reflexivity.
Qed.

End CrawlLoop.

(** ** Next-link resolution *)

Lemma german_next_url_of_spec (soup : element) :
  German.next_url_of soup
  = match find soup German.is_forward with
    | None => Raise AttributeError
    | Some li => Return (a ← find li (named (py "a")); get a (py "href"))
    end.
Proof.
  unfold German.next_url_of.
  destruct (find soup German.is_forward) as [li|]; [|reflexivity].
  cbn. destruct (find li (named (py "a"))); reflexivity.
Qed.

Lemma german_next_url_without_item (soup : element) :
  find soup German.is_forward = None ->
  German.next_url_of soup = Raise AttributeError.
Proof. intros H. rewrite german_next_url_of_spec, H. reflexivity. Qed.

Lemma german_next_url_with_item (soup li : element) :
  find soup German.is_forward = Some li ->
  German.next_url_of soup
  = Return (a ← find li (named (py "a")); get a (py "href")).
Proof. intros H. rewrite german_next_url_of_spec, H. reflexivity. Qed.

(** The Dutch resolver never raises: it answers the [href] of the anchor in
    the next-page item, or [None] when the item, the anchor or the [href]
    is missing. *)
Lemma dutch_next_url_of_spec (soup : element) (w : world) :
  exists c,
    Dutch.next_url_of soup w
    = (World (fetched w) c (files w),
       Done (a ← next_anchor A soup; get a (py "href"))).
Proof.
  unfold Dutch.next_url_of, next_anchor.
  destruct (find soup Dutch.is_next) as [li|]; cbn.
  - destruct (find li (named (py "a"))) as [a|]; cbn; eexists; reflexivity.
  - eexists; reflexivity.
Qed.

(** The Italian resolver is a total function of the page. *)
Lemma italy_get_next_page_spec (soup : element) :
  Italy.get_next_page soup = (a ← next_anchor C soup; get a (py "href")).
Proof. reflexivity. Qed.

(** One pass of each script on a page the web serves: one GET, and the
    outcome the page determines. *)
Lemma loop_body_fetches_once (v : variant) (W : web) (url : str) (page : node) :
  serves W url page ->
  fetches_once (loop_body v W) url (page_outcome v (root page)).
Proof.
  intros (r & Hget & Hparse) w.
  assert (Hsoup : BeautifulSoup W (text r) = root page)
    by (unfold BeautifulSoup, root; rewrite Hparse; reflexivity).
  destruct v; unfold loop_body, page_outcome.
  - unfold Dutch.get_data_page, try_except, mbind, M_bind, print,
      requests_get, lift.
    cbn [fetched console files]. rewrite Hget, Hsoup.
    destruct (Dutch.page_records (root page)) as [data|e].
    + match goal with |- context [Dutch.next_url_of ?s ?w0] =>
        destruct (dutch_next_url_of_spec s w0) as [c Hc]; rewrite Hc end.
      cbn [fetched files]. eexists. reflexivity.
    + eexists. reflexivity.
  - unfold German.get_data_page, mbind, M_bind, print, requests_get, lift.
    cbn [fetched console files]. rewrite Hget, Hsoup.
    destruct (German.page_records (root page)) as [data|e];
      [|eexists; reflexivity].
    destruct (German.next_url_of (root page)) as [n|e]; eexists; reflexivity.
  - unfold Italy.get_page, mbind, M_bind, requests_get, lift, mret, M_ret.
    cbn [fetched console files]. rewrite Hget, Hsoup.
    destruct (Italy.scrape_page (root page)) as [data|e]; eexists; reflexivity.
Qed.

(** A page that resolves a link makes the pass answer its records and that
    link. *)
Lemma page_outcome_resolves (v : variant) (page : node) (url' : str) :
  resolves v page url' ->
  exists data, page_outcome v (root page) = Return (data, Some url').
Proof.
  intros ((data & Hdata) & a & Ha & Hhref). exists data.
  destruct v; unfold page_outcome, extract in *.
  - rewrite Hdata, Ha. cbn. rewrite Hhref. reflexivity.
  - rewrite Hdata, german_next_url_of_spec. unfold next_anchor in Ha.
    destruct (find (root page) German.is_forward) as [li|]; [|discriminate].
    cbn in Ha. cbn. rewrite Ha. cbn. rewrite Hhref. reflexivity.
  - rewrite Hdata, italy_get_next_page_spec, Ha. cbn. rewrite Hhref.
    reflexivity.
Qed.

(** ** Transport failures and error statuses *)




(** ** The German rows *)

Lemma call_strip_following (e : element) (t : str) :
  following_text e = Some t -> call_strip (next_sibling e) = Return (VStr (strip t)).
Proof.
  unfold following_text, call_strip.
  destruct (next_sibling e) as [[k s|nm at_ cl cs]|]; intros H;
    inversion H; subst; reflexivity.
Qed.

Lemma german_row_few_bold (tr td0 td1 : element) (rest : list element) :
  find_all tr (named (py "td")) = td0 :: td1 :: rest ->
  (length (find_all td1 (named (py "strong"))) < 2)%nat ->
  German.row_data tr
  = Return (Some (german_fields (strip (get_text td0)) (anchor_text_or_na td1)
                    (VStr (py "N/A")) (VStr (py "N/A")))).
Proof.
  intros Htds Hbold. unfold German.row_data. rewrite Htds.
  cbn [length]. change (S (S (length rest)) <? 2)%nat with false. cbv iota.
  rewrite py_index_0, py_index_1. cbn [mbind result_bind].
  replace (2 <=? length (find_all td1 (named (py "strong"))))%nat with false
    by (symmetry; apply Nat.leb_gt; exact Hbold).
  reflexivity.
Qed.

Lemma german_row_two_bold (tr td0 td1 : element) (rest : list element)
    (s0 s1 : element) (more : list element) (t0 t1 : str) :
  find_all tr (named (py "td")) = td0 :: td1 :: rest ->
  find_all td1 (named (py "strong")) = s0 :: s1 :: more ->
  following_text s0 = Some t0 ->
  following_text s1 = Some t1 ->
  German.row_data tr
  = Return (Some (german_fields (strip (get_text td0)) (anchor_text_or_na td1)
                    (VStr (strip t0)) (VStr (strip t1)))).
Proof.
  intros Htds Hbold H0 H1. unfold German.row_data. rewrite Htds.
  cbn [length]. change (S (S (length rest)) <? 2)%nat with false. cbv iota.
  rewrite py_index_0, py_index_1. cbn [mbind result_bind].
  rewrite Hbold. cbn [length].
  change (2 <=? S (S (length more)))%nat with true. cbv iota.
  rewrite py_index_0, py_index_1. cbn [mbind result_bind].
  rewrite (call_strip_following s0 t0 H0), (call_strip_following s1 t1 H1).
  reflexivity.
Qed.

(** C5, amended. For a German row with at least two cells: the date is the
    trimmed text of the first cell and the device the trimmed text of the
    first anchor of the second cell, or "N/A" without anchor; with fewer
    than two bold elements in the second cell, type and reference are both
    "N/A"; with two or more, each of the first two followed by a string
    node, type and reference are those two strings, trimmed. *)
Theorem german_row_record (tr td0 td1 : element) (rest : list element) :
  find_all tr (named (py "td")) = td0 :: td1 :: rest ->
  ((length (find_all td1 (named (py "strong"))) < 2)%nat ->
   German.row_data tr
   = Return (Some (german_fields (strip (get_text td0)) (anchor_text_or_na td1)
                     (VStr (py "N/A")) (VStr (py "N/A")))))
  /\ (forall (s0 s1 : element) (more : list element) (t0 t1 : str),
        find_all td1 (named (py "strong")) = s0 :: s1 :: more ->
        following_text s0 = Some t0 ->
        following_text s1 = Some t1 ->
        German.row_data tr
        = Return (Some (german_fields (strip (get_text td0))
                          (anchor_text_or_na td1)
                          (VStr (strip t0)) (VStr (strip t1))))).
Proof.
  intros Htds. split.
  - apply german_row_few_bold with (rest := rest). exact Htds.
  - intros s0 s1 more t0 t1. apply german_row_two_bold with (rest := rest).
    exact Htds.
Qed.

Lemma german_row_record_witness :
  German.row_data Fixtures.german_tr_plain
  = Return (Some (german_fields (py "2023-05-02") (py "N/A")
                    (VStr (py "N/A")) (VStr (py "N/A"))))
  /\ German.row_data Fixtures.german_tr_full
     = Return (Some (german_fields (py "2023-05-01") (py "Pump X")
                       (VStr (py "Infusion")) (VStr (py "01234/23")))).
Proof.
  split.
  - pose (c := Fixtures.cells_of "2023-05-02" [Fixtures.txt "no details"]).
    destruct (german_row_record Fixtures.german_tr_plain c.1 c.2 [])
      as [Hfew _]; [vm_compute; reflexivity|].
    rewrite Hfew by (vm_compute; lia). vm_compute. reflexivity.
  - pose (c := Fixtures.cells_of " 2023-05-01 " Fixtures.german_details).
    destruct (german_row_record Fixtures.german_tr_full c.1 c.2 [])
      as [_ Htwo]; [vm_compute; reflexivity|].
    rewrite (Htwo
               (Element (Fixtures.tag "strong" [Fixtures.txt "Product group"])
                        (Some (Fixtures.txt " Infusion ")))
               (Element (Fixtures.tag "strong" [Fixtures.txt "Reference"])
                        (Some (Fixtures.txt " 01234/23 ")))
               [] (py " Infusion ") (py " 01234/23 "));
      vm_compute; reflexivity.
Defined.

(** C5 as it is written fails twice.  A row with two cells whose two bold
    elements follow each other gives no record: the sibling of the first is
    a tag, and calling its [strip] raises.  And the device of a record is
    the trimmed text of the anchor, not its text. *)
Lemma german_row_counterexample :
  (length (find_all Fixtures.german_tr_bold_only (named (py "td"))) = 2%nat
   /\ German.row_data Fixtures.german_tr_bold_only = Raise TypeError)
  /\ (get_text (Element (Fixtures.anchor "/doc1" [Fixtures.txt " Pump X "]) None)
      = py " Pump X "
      /\ anchor_text_or_na (Fixtures.cells_of " 2023-05-01 " Fixtures.german_details).2
         = py "Pump X"
      /\ German.row_data Fixtures.german_tr_full
         = Return (Some (german_fields (py "2023-05-01") (py "Pump X")
                           (VStr (py "Infusion")) (VStr (py "01234/23"))))).
Proof. compute_each. Qed.

(** ** Missing elements *)

Lemma split_not_nil (sep : Z) (s : str) : split sep s <> [].
Proof.
  destruct s as [|c r]; cbn [split]; [discriminate|].
  destruct (c =? sep); [discriminate|].
  destruct (split sep r); discriminate.
Qed.

Lemma py_index_last_defined {X} (l : list X) :
  l <> [] -> exists x, py_index l (-1) = Return x.
Proof.
  intros Hl. unfold py_index. change (-1 <? 0) with true. cbv iota.
  destruct l as [|x0 l]; [congruence|]. cbn [length].
  replace (0 <=? -1 + Z.of_nat (S (length l))) with true
    by (symmetry; apply Z.leb_le; lia).
  replace (-1 + Z.of_nat (S (length l)) <? Z.of_nat (S (length l))) with true
    by (symmetry; apply Z.ltb_lt; lia).
  cbn [andb].
  destruct ((x0 :: l) !! Z.to_nat (-1 + Z.of_nat (S (length l)))) as [x|] eqn:Hx.
  - exists x. reflexivity.
  - apply lookup_ge_None in Hx. cbn [length] in Hx. lia.
Qed.



Lemma dutch_link_complete (link h3 p meta : element) :
  find link (named (py "h3")) = Some h3 ->
  find link (named (py "p")) = Some p ->
  find link Dutch.is_meta = Some meta ->
  exists date,
    Dutch.link_data link
    = Return [(py "title", VStr (strip (get_text h3)));
              (py "warning_text", VStr (strip (get_text p)));
              (py "date", VStr (strip date))].
Proof.
  intros H1 H2 H3. unfold Dutch.link_data. rewrite H1, H2, H3.
  cbn [not_none mbind result_bind].
  destruct (py_index_last_defined (split 124 (strip (get_text meta)))
              (split_not_nil _ _)) as [last Hlast].
  rewrite Hlast. exists last. reflexivity.
Qed.



Lemma italy_row_first_cell (row c0 : element) (cols : list element) :
  find_all row (named (py "td")) = c0 :: cols ->
  Italy.row_data row
  = Return [(py "column_1", VStr (remove_surrogates (strip (get_text c0))))].
Proof.
  intros H. unfold Italy.row_data. rewrite H, py_index_0. reflexivity.
Qed.




(** ** The German resolver without its list item *)

(** C1, at the failing input. A German page without the list item
    [c-navindex__item is-forward] has no next-page element, and the
    resolver does not answer [None]: [soup.find(...)] is [None], its
    [.find('a')] raises AttributeError, and so does the whole
    [get_data_page], after the records of the page were extracted. *)
Theorem german_resolver_raises_without_forward_item :
  next_anchor B (root Fixtures.german_page2_no_li) = None
  /\ German.page_records (root Fixtures.german_page2_no_li)
     = Return [german_fields (py "2023-04-01") (py "Pump X")
                 (VStr (py "Infusion")) (VStr (py "01234/23"))]
  /\ German.next_url_of (root Fixtures.german_page2_no_li)
     = Raise AttributeError
  /\ German.get_data_page Fixtures.german_web_no_li
       (py "http://bfarm.example/page2") Fixtures.empty_world
     = (World [py "http://bfarm.example/page2"] [] ∅, Raised AttributeError)
  /\ (German.get_data Fixtures.german_web_no_li 5 German.start_url
        Fixtures.empty_world).2 = Raised AttributeError.
Proof. compute_each. Qed.

(** ** Empty crawls *)

Lemma dutch_write_to_csv_empty (filename : str) (w : world) :
  Dutch.write_to_csv [] filename w
  = (World (fetched w)
           (console w ++ [[PStr (py "Writing data to: " ++ filename)]])
           (<[filename := []]> (files w)),
     Raised IndexError).
Proof. reflexivity. Qed.

(** The Italian sink tests for the empty list and leaves the files alone. *)
Lemma italy_save_to_csv_empty (filename : str) (w : world) :
  Italy.save_to_csv [] filename w
  = (World (fetched w)
           (console w ++ [[PStr (py "No data to write to CSV.")]])
           (files w),
     Done tt).
Proof. reflexivity. Qed.

(** The German [main] tests for the empty list and does not call the
    sink. *)
Lemma german_main_empty (W : web) (fuel : nat) (w w' : world) :
  German.get_data W fuel German.start_url
    (World (fetched w)
           (console w ++ [[PStr (py "Starting the data collection process...")]])
           (files w))
  = (w', Done []) ->
  German.main W fuel w
  = (World (fetched w') (console w' ++ [[PStr (py "No data collected.")]])
           (files w'),
     Done tt).
Proof.
  intros H. unfold German.main, mbind, M_bind, print at 1.
  cbn [fetched console files]. rewrite H. reflexivity.
Qed.

(** C3, at the failing input. The Dutch script calls its sink whatever the
    crawl gave.  On a crawl without records the sink opens the output file
    for writing, which empties the file left by an earlier run, and then
    raises IndexError on [data[0]]. *)
Theorem dutch_empty_crawl_truncates_output :
  Dutch.get_data Fixtures.dutch_web_empty 5 Dutch.start_url Fixtures.old_world
  = (World [Dutch.start_url]
           [[PStr (py "Fetching data from page: " ++ Dutch.start_url)];
            [PStr (py "No next link element found.")]]
           (files Fixtures.old_world),
     Done [])
  /\ files Fixtures.old_world !! py "devices_data.csv"
     = Some [[VStr (py "date")]; [VStr (py "old")]]
  /\ (Dutch.script Fixtures.dutch_web_empty 5 Fixtures.old_world).2
     = Raised IndexError
  /\ files (Dutch.script Fixtures.dutch_web_empty 5 Fixtures.old_world).1
       !! py "devices_data.csv" = Some []
  /\ files (Dutch.script Fixtures.dutch_web_empty 5 Fixtures.empty_world).1
       !! py "devices_data.csv" = Some []
  /\ files (German.main Fixtures.german_web_empty 5 Fixtures.old_world).1
     = files Fixtures.old_world.
Proof. compute_each. Qed.

(** ** The sink *)

Lemma assoc_is_Some {V} (k : str) (l : list (str * V)) :
  k ∈ map fst l -> is_Some (assoc k l).
Proof.
  induction l as [|[k' v] l IH]; cbn [map fst assoc]; intros H.
  - apply elem_of_nil in H. destruct H.
  - destruct (bool_decide (k' = k)) eqn:Hk; [eexists; reflexivity|].
    apply bool_decide_eq_false in Hk.
    apply elem_of_cons in H. destruct H as [H|H]; [congruence|].
    apply IH. exact H.
Qed.

Lemma assoc_In {V} (k : str) (l : list (str * V)) (v : V) :
  assoc k l = Some v -> In (k, v) l.
Proof.
  induction l as [|[k' v'] l IH]; cbn [assoc]; [discriminate|].
  destruct (bool_decide (k' = k)) eqn:Hk.
  - apply bool_decide_eq_true in Hk. intros H. inversion H; subst.
    left. reflexivity.
  - intros H. right. apply IH. exact H.
Qed.

Lemma keys_accepted (fieldnames : list str) (d : record) :
  (forall k, k ∈ dict_keys d -> k ∈ fieldnames) ->
  forallb (fun k => bool_decide (k ∈ fieldnames)) (dict_keys d) = true.
Proof.
  intros H. apply forallb_forall. intros k Hk.
  apply bool_decide_eq_true. apply H. apply list_elem_of_In. exact Hk.
Qed.

(** The row of a record without surrogates can be encoded, under any field
    names. *)
Lemma row_encodable (fieldnames : list str) (d : record) :
  encodable d = true -> unencodable (row_of fieldnames d) = false.
Proof.
  intros Hd. unfold encodable in Hd. rewrite forallb_forall in Hd.
  unfold unencodable, row_of.
  induction fieldnames as [|key keys IH]; [reflexivity|].
  cbn [map existsb]. rewrite IH, orb_false_r. unfold dict_get.
  destruct (assoc key d) as [v|] eqn:Hv; [|reflexivity].
  specialize (Hd _ (assoc_In _ _ _ Hv)). cbn [snd] in Hd.
  apply andb_true_iff in Hd. destruct Hd as [_ Hd].
  apply negb_true_iff in Hd. exact Hd.
Qed.

(** So can the header made of its field names. *)
Lemma header_encodable (d : record) :
  encodable d = true -> unencodable (map VStr (dict_keys d)) = false.
Proof.
  unfold encodable, unencodable, dict_keys.
  induction d as [|[k v] d IH]; [reflexivity|].
  cbn [forallb map existsb fst snd value_has_surrogate]. intros H.
  apply andb_true_iff in H. destruct H as [Hkv Hd].
  apply andb_true_iff in Hkv. destruct Hkv as [Hk _].
  apply negb_true_iff in Hk. rewrite Hk, (IH Hd). reflexivity.
Qed.

Lemma rows_encodable (fieldnames : list str) (data : list record) :
  Forall (fun d => encodable d = true) data ->
  forallb (fun r => negb (unencodable r)) (map (row_of fieldnames) data) = true.
Proof.
  induction 1 as [|d data Hd _ IH]; [reflexivity|].
  cbn [map forallb]. rewrite (row_encodable fieldnames d Hd), IH. reflexivity.
Qed.

Lemma written_all (rows : list row) :
  forallb (fun r => negb (unencodable r)) rows = true ->
  written rows = rows /\ write_outcome rows = Done tt.
Proof.
  intros H. unfold write_outcome. rewrite H. split; [|reflexivity].
  induction rows as [|r rows IH]; [reflexivity|].
  cbn [forallb] in H. apply andb_true_iff in H. destruct H as [Hr Hrows].
  apply negb_true_iff in Hr. cbn [written]. rewrite Hr, (IH Hrows).
  reflexivity.
Qed.

(** The rows written are the rows before the first one that cannot be
    encoded; without such a row, all of them. *)
Lemma written_split (rows : list row) :
  (written rows = rows /\ write_outcome rows = Done tt
   /\ Forall (fun r => unencodable r = false) rows)
  \/ exists before r after,
       rows = before ++ r :: after
       /\ Forall (fun r => unencodable r = false) before
       /\ unencodable r = true
       /\ written rows = before
       /\ write_outcome rows = Raised UnicodeEncodeError.
Proof.
  unfold write_outcome.
  induction rows as [|r rows IH]; [left; repeat split; constructor|].
  cbn [written forallb].
  destruct (unencodable r) eqn:Hr; cbn [negb andb].
  - right. exists [], r, rows. repeat split; [constructor|exact Hr].
  - destruct IH as [(Hw & Ho & Hall)|(before & r' & after & Hrows & Hb & Hr' & Hw & Ho)].
    + left. rewrite Hw, Ho. repeat split. constructor; assumption.
    + right. exists (r :: before), r', after. rewrite Hw, Ho, Hrows.
      repeat split; [constructor; assumption|exact Hr'].
Qed.

Lemma written_leaves (t : list row) :
  sink_leaves t (written t) (write_outcome t).
Proof.
  destruct (written_split t)
    as [(Hw & Ho & Hall)|(before & r & after & Ht & Hb & Hr & Hw & Ho)].
  - left. rewrite Hw, Ho. auto.
  - right. exists before, r, after. rewrite Hw, Ho. auto.
Qed.

(** Writing records whose keys are all field names appends their rows, in
    order, to a file that is open, up to the first row that cannot be
    encoded. *)
Lemma writerows_upto (filename : str) (fieldnames : list str)
    (data : list record) :
  Forall (fun d => forall k, k ∈ dict_keys d -> k ∈ fieldnames) data ->
  forall (w : world) (content : list row),
    files w !! filename = Some content ->
    writerows filename fieldnames data w
    = (World (fetched w) (console w)
             (<[filename :=
                  content ++ written (map (row_of fieldnames) data)]>
                (files w)),
       write_outcome (map (row_of fieldnames) data)).
Proof.
  induction 1 as [|d data Hd _ IH]; intros w content Hfile.
  - cbn [writerows map written]. rewrite app_nil_r, insert_id by exact Hfile.
    destruct w; reflexivity.
  - cbn [writerows map written]. unfold mbind, M_bind, dict_writerow.
    rewrite keys_accepted by exact Hd.
    unfold writerow at 1.
    change (map (fun key => dict_get d key (VStr [])) fieldnames)
      with (row_of fieldnames d).
    unfold write_outcome. cbn [forallb].
    destruct (unencodable (row_of fieldnames d)) eqn:Hrow; cbn [negb andb].
    + rewrite app_nil_r, insert_id by exact Hfile. destruct w; reflexivity.
    + rewrite Hfile. cbn [default].
      rewrite (IH _ (content ++ [row_of fieldnames d]))
        by (cbn [files]; apply lookup_insert_eq).
      cbn [fetched console files].
      rewrite insert_insert_eq, <- app_assoc. reflexivity.
Qed.

Lemma same_fields_accepted (d0 : record) (data : list record) :
  same_fields d0 data ->
  Forall (fun d => forall k, k ∈ dict_keys d -> k ∈ dict_keys d0) data.
Proof.
  unfold same_fields. induction 1 as [|d data Hd _ IH]; constructor;
    [intros k; apply Hd | exact IH].
Qed.

Lemma same_fields_defined (d0 : record) (data : list record) :
  same_fields d0 data ->
  Forall (fun d => Forall (fun key => is_Some (assoc key d)) (dict_keys d0))
         data.
Proof.
  unfold same_fields. induction 1 as [|d data Hd _ IH]; constructor;
    [|exact IH].
  apply Forall_forall. intros k Hk. apply assoc_is_Some.
  apply Hd. exact Hk.
Qed.

Lemma same_fields_first (d0 : record) (rest : list record) :
  same_fields d0 rest -> same_fields d0 (d0 :: rest).
Proof. intros H. constructor; [tauto | exact H]. Qed.

(** The German (and Dutch) sink on records whose keys are keys of the
    first: the file is opened, and the header and the rows are written up
    to the first that cannot be encoded. *)
Lemma german_sink_upto (d0 : record) (rest : list record) (filename : str)
    (w : world) :
  Forall (fun d => forall k, k ∈ dict_keys d -> k ∈ dict_keys d0) rest ->
  German.write_to_csv (d0 :: rest) filename w
  = (World (fetched w)
           (console w ++ [[PStr (py "Writing data to: " ++ filename)]])
           (<[filename := written (table_of d0 (d0 :: rest))]> (files w)),
     write_outcome (table_of d0 (d0 :: rest))).
Proof.
  intros Hrest.
  assert (Hacc : Forall (fun d => forall k, k ∈ dict_keys d -> k ∈ dict_keys d0)
                        (d0 :: rest))
    by (constructor; [auto|exact Hrest]).
  unfold German.write_to_csv, mbind, M_bind, print, open_w, lift, writeheader.
  rewrite py_index_0. unfold writerow at 1.
  cbn [fetched console files].
  unfold table_of, write_outcome. cbn [written forallb].
  destruct (unencodable (map VStr (dict_keys d0))) eqn:Hh; cbn [negb andb];
    [reflexivity|].
  rewrite lookup_insert_eq. cbn [default app].
  rewrite (writerows_upto filename (dict_keys d0) (d0 :: rest) Hacc _
             [map VStr (dict_keys d0)])
    by (cbn [files]; apply lookup_insert_eq).
  cbn [fetched console files]. rewrite !insert_insert_eq. reflexivity.
Qed.

Lemma italy_sink_upto (d0 : record) (rest : list record) (filename : str)
    (w : world) :
  Forall (fun d => forall k, k ∈ dict_keys d -> k ∈ dict_keys d0) rest ->
  Italy.save_to_csv (d0 :: rest) filename w
  = (World (fetched w) (console w)
           (<[filename := written (table_of d0 (d0 :: rest))]> (files w)),
     write_outcome (table_of d0 (d0 :: rest))).
Proof.
  intros Hrest.
  assert (Hacc : Forall (fun d => forall k, k ∈ dict_keys d -> k ∈ dict_keys d0)
                        (d0 :: rest))
    by (constructor; [auto|exact Hrest]).
  unfold Italy.save_to_csv, list_truthy, mbind, M_bind, open_w, lift,
    writeheader.
  rewrite py_index_0. unfold writerow at 1.
  cbn [fetched console files].
  unfold table_of, write_outcome. cbn [written forallb].
  destruct (unencodable (map VStr (dict_keys d0))) eqn:Hh; cbn [negb andb];
    [reflexivity|].
  rewrite lookup_insert_eq. cbn [default app].
  rewrite (writerows_upto filename (dict_keys d0) (d0 :: rest) Hacc _
             [map VStr (dict_keys d0)])
    by (cbn [files]; apply lookup_insert_eq).
  cbn [fetched console files]. rewrite !insert_insert_eq. reflexivity.
Qed.

(** The table of records without surrogates is written whole. *)
Lemma table_encodable (d0 : record) (data : list record) :
  encodable d0 = true ->
  Forall (fun d => encodable d = true) data ->
  written (table_of d0 data) = table_of d0 data
  /\ write_outcome (table_of d0 data) = Done tt.
Proof.
  intros H0 Hdata. apply written_all. unfold table_of. cbn [forallb].
  rewrite (header_encodable d0 H0). cbn [negb andb].
  apply (rows_encodable (dict_keys d0) data Hdata).
Qed.

Lemma german_sink_table_incl (d0 : record) (rest : list record)
    (filename : str) (w : world) :
  Forall (fun d => forall k, k ∈ dict_keys d -> k ∈ dict_keys d0) rest ->
  Forall (fun d => encodable d = true) (d0 :: rest) ->
  German.write_to_csv (d0 :: rest) filename w
  = (World (fetched w)
           (console w ++ [[PStr (py "Writing data to: " ++ filename)]])
           (<[filename := table_of d0 (d0 :: rest)]> (files w)),
     Done tt).
Proof.
  intros Hrest Henc. rewrite (german_sink_upto d0 rest filename w Hrest).
  destruct (table_encodable d0 (d0 :: rest)) as [Hw Ho];
    [exact (Forall_inv Henc)|exact Henc|].
  rewrite Hw, Ho. reflexivity.
Qed.

Lemma italy_sink_table_incl (d0 : record) (rest : list record)
    (filename : str) (w : world) :
  Forall (fun d => forall k, k ∈ dict_keys d -> k ∈ dict_keys d0) rest ->
  Forall (fun d => encodable d = true) (d0 :: rest) ->
  Italy.save_to_csv (d0 :: rest) filename w
  = (World (fetched w) (console w)
           (<[filename := table_of d0 (d0 :: rest)]> (files w)),
     Done tt).
Proof.
  intros Hrest Henc. rewrite (italy_sink_upto d0 rest filename w Hrest).
  destruct (table_encodable d0 (d0 :: rest)) as [Hw Ho];
    [exact (Forall_inv Henc)|exact Henc|].
  rewrite Hw, Ho. reflexivity.
Qed.

Lemma german_sink_table (d0 : record) (rest : list record) (filename : str)
    (w : world) :
  same_fields d0 rest ->
  Forall (fun d => encodable d = true) (d0 :: rest) ->
  German.write_to_csv (d0 :: rest) filename w
  = (World (fetched w)
           (console w ++ [[PStr (py "Writing data to: " ++ filename)]])
           (<[filename := table_of d0 (d0 :: rest)]> (files w)),
     Done tt).
Proof.
  intros Hsame. apply german_sink_table_incl.
  apply same_fields_accepted. exact Hsame.
Qed.

Lemma italy_sink_table (d0 : record) (rest : list record) (filename : str)
    (w : world) :
  same_fields d0 rest ->
  Forall (fun d => encodable d = true) (d0 :: rest) ->
  Italy.save_to_csv (d0 :: rest) filename w
  = (World (fetched w) (console w)
           (<[filename := table_of d0 (d0 :: rest)]> (files w)),
     Done tt).
Proof.
  intros Hsame. apply italy_sink_table_incl.
  apply same_fields_accepted. exact Hsame.
Qed.

(** C9, amended. Given a non-empty sequence of records with the field
    names of the first, no field name and no value of which holds a lone
    surrogate, the German and the Italian sink leave in the output file
    one header row, the keys of the first record in its key order,
    followed by one row per record in the order of the sequence, the
    values of each row under the same keys in the same order (every key
    has its value). *)
Theorem sink_writes_header_then_rows
    (d0 : record) (rest : list record) (filename : str) (w : world) :
  same_fields d0 rest ->
  Forall (fun d => encodable d = true) (d0 :: rest) ->
  German.write_to_csv (d0 :: rest) filename w
  = (World (fetched w)
           (console w ++ [[PStr (py "Writing data to: " ++ filename)]])
           (<[filename := table_of d0 (d0 :: rest)]> (files w)),
     Done tt)
  /\ Italy.save_to_csv (d0 :: rest) filename w
     = (World (fetched w) (console w)
              (<[filename := table_of d0 (d0 :: rest)]> (files w)),
        Done tt)
  /\ Forall (fun d => Forall (fun key => is_Some (assoc key d)) (dict_keys d0))
            (d0 :: rest).
Proof.
  intros Hsame Henc.
  split; [apply german_sink_table; assumption|].
  split; [apply italy_sink_table; assumption|].
  apply same_fields_defined, same_fields_first. exact Hsame.
Qed.

Lemma sink_writes_witness :
  files (German.write_to_csv [Fixtures.record_pump; Fixtures.record_plain]
           (py "devices_data.csv") Fixtures.old_world).1
    !! py "devices_data.csv"
  = Some [[VStr (py "date"); VStr (py "device"); VStr (py "device_type");
           VStr (py "device_reference")];
          [VStr (py "2023-05-01"); VStr (py "Pump X"); VStr (py "Infusion");
           VStr (py "01234/23")];
          [VStr (py "2023-05-02"); VStr (py "N/A"); VStr (py "N/A");
           VStr (py "N/A")]]
  /\ (Italy.save_to_csv [Fixtures.record_pump; Fixtures.record_plain]
        (py "unified_data.csv") Fixtures.old_world).2
     = Done tt.
Proof.
  destruct (sink_writes_header_then_rows Fixtures.record_pump
              [Fixtures.record_plain] (py "devices_data.csv")
              Fixtures.old_world) as (HG & _ & _).
  { constructor; [intros k; split; exact (fun H => H) | constructor]. }
  { repeat constructor. }
  destruct (sink_writes_header_then_rows Fixtures.record_pump
              [Fixtures.record_plain] (py "unified_data.csv")
              Fixtures.old_world) as (_ & HI & _).
  { constructor; [intros k; split; exact (fun H => H) | constructor]. }
  { repeat constructor. }
  rewrite HG, HI. split; [|reflexivity].
  cbn [fst files]. rewrite lookup_insert_eq. vm_compute. reflexivity.
Defined.

(** C9 as it is written fails on a record that holds a lone surrogate, a
    value the parser makes of a character reference such as [&#xD83D;].
    The three records have the same field names; the sink writes the
    header and the first row, raises UnicodeEncodeError on the second
    record, and leaves the third unwritten. *)
Lemma sink_counterexample :
  same_fields Fixtures.record_pump
    [Fixtures.record_surrogate; Fixtures.record_plain]
  /\ German.write_to_csv
       [Fixtures.record_pump; Fixtures.record_surrogate; Fixtures.record_plain]
       (py "devices_data.csv") Fixtures.empty_world
     = (World [] [[PStr (py "Writing data to: devices_data.csv")]]
          {[ py "devices_data.csv" :=
               [[VStr (py "date"); VStr (py "device"); VStr (py "device_type");
                 VStr (py "device_reference")];
                [VStr (py "2023-05-01"); VStr (py "Pump X");
                 VStr (py "Infusion"); VStr (py "01234/23")]] ]},
        Raised UnicodeEncodeError)
  /\ Italy.save_to_csv
       [Fixtures.record_pump; Fixtures.record_surrogate; Fixtures.record_plain]
       (py "devices_data.csv") Fixtures.empty_world
     = (World [] []
          {[ py "devices_data.csv" :=
               [[VStr (py "date"); VStr (py "device"); VStr (py "device_type");
                 VStr (py "device_reference")];
                [VStr (py "2023-05-01"); VStr (py "Pump X");
                 VStr (py "Infusion"); VStr (py "01234/23")]] ]},
        Raised UnicodeEncodeError).
Proof.
  split; [|compute_each].
  constructor; [intros k; reflexivity|].
  constructor; [intros k; reflexivity|constructor].
Qed.

(** ** The field names of the records of a crawl *)

Lemma german_row_fields (tr : element) (d : record) :
  German.row_data tr = Return (Some d) -> dict_keys d = fields B.
Proof.
  intros H. unfold German.row_data, mbind, result_bind in H.
  split_result H; inversion H; reflexivity.
Qed.

Lemma dutch_link_fields (link : element) (d : record) :
  Dutch.link_data link = Return d -> dict_keys d = fields A.
Proof.
  intros H. unfold Dutch.link_data, mbind, result_bind in H.
  split_result H; inversion H; reflexivity.
Qed.

Lemma italy_row_fields (row : element) (d : record) :
  Italy.row_data row = Return d -> dict_keys d = fields C.
Proof.
  intros H. unfold Italy.row_data, mbind, result_bind in H.
  split_result H; inversion H; reflexivity.
Qed.

Lemma german_rows_fields (trs : list element) :
  forall acc data : list record,
    Forall (fun d => dict_keys d = fields B) acc ->
    German.rows_data trs acc = Return data ->
    Forall (fun d => dict_keys d = fields B) data.
Proof.
  induction trs as [|tr trs IH]; intros acc data Hacc H; cbn [German.rows_data] in H.
  - inversion H; subst. exact Hacc.
  - destruct (German.row_data tr) as [[d|]|e] eqn:Hrow;
      cbn [mbind result_bind] in H; [| |discriminate].
    + apply (IH _ _ (Forall_app_2 _ _ _ Hacc
                       (Forall_cons_2 _ _ _ (german_row_fields _ _ Hrow)
                                      (Forall_nil_2 _))) H).
    + apply (IH _ _ Hacc H).
Qed.

Lemma dutch_links_fields (links : list element) :
  forall acc data : list record,
    Forall (fun d => dict_keys d = fields A) acc ->
    Dutch.links_data links acc = Return data ->
    Forall (fun d => dict_keys d = fields A) data.
Proof.
  induction links as [|link links IH]; intros acc data Hacc H;
    cbn [Dutch.links_data] in H.
  - inversion H; subst. exact Hacc.
  - destruct (Dutch.link_data link) as [d|e] eqn:Hlink;
      cbn [mbind result_bind] in H; [|discriminate].
    apply (IH _ _ (Forall_app_2 _ _ _ Hacc
                     (Forall_cons_2 _ _ _ (dutch_link_fields _ _ Hlink)
                                    (Forall_nil_2 _))) H).
Qed.

Lemma italy_rows_fields (rows : list element) :
  forall acc data : list record,
    Forall (fun d => dict_keys d = fields C) acc ->
    Italy.rows_data rows acc = Return data ->
    Forall (fun d => dict_keys d = fields C) data.
Proof.
  induction rows as [|row rows IH]; intros acc data Hacc H;
    cbn [Italy.rows_data] in H.
  - inversion H; subst. exact Hacc.
  - destruct (Italy.row_data row) as [d|e] eqn:Hrow;
      cbn [mbind result_bind] in H; [|discriminate].
    apply (IH _ _ (Forall_app_2 _ _ _ Hacc
                     (Forall_cons_2 _ _ _ (italy_row_fields _ _ Hrow)
                                    (Forall_nil_2 _))) H).
Qed.

(** The records of a page all have the field names of their script. *)
Lemma extract_fields (v : variant) (soup : element) (data : list record) :
  extract v soup = Return data ->
  Forall (fun d => dict_keys d = fields v) data.
Proof.
  destruct v; cbn [extract]; intros H.
  - apply (dutch_links_fields _ [] data (Forall_nil_2 _) H).
  - apply (german_rows_fields _ [] data (Forall_nil_2 _) H).
  - unfold Italy.scrape_page in H.
    destruct (find soup Italy.is_table); [|inversion H; constructor].
    apply (italy_rows_fields _ [] data (Forall_nil_2 _) H).
Qed.

Lemma loop_body_fields (v : variant) (W : web) (url : str) (w w1 : world)
    (d : list record) (n : option str) :
  loop_body v W url w = (w1, Done (d, n)) ->
  Forall (fun r => dict_keys r = fields v) d.
Proof.
  destruct v; unfold loop_body.
  - unfold Dutch.get_data_page, try_except, mbind, M_bind, print,
      requests_get, lift. cbn [fetched console files].
    destruct (http_get W url user_agent_headers) as [r|e].
    + destruct (Dutch.page_records (BeautifulSoup W (text r))) as [data|e] eqn:Hrec.
      * match goal with |- context [Dutch.next_url_of ?s ?w0] =>
          destruct (dutch_next_url_of_spec s w0) as [c Hc]; rewrite Hc end.
        intros H. inversion H; subst.
        apply (extract_fields A _ _ Hrec).
      * intros H. inversion H. constructor.
    + intros H. inversion H. constructor.
  - unfold German.get_data_page, mbind, M_bind, print, requests_get, lift.
    cbn [fetched console files].
    destruct (http_get W url user_agent_headers) as [r|e]; [|discriminate].
    destruct (German.page_records (BeautifulSoup W (text r))) as [data|e] eqn:Hrec;
      [|discriminate].
    destruct (German.next_url_of (BeautifulSoup W (text r))); [|discriminate].
    intros H. inversion H; subst. apply (extract_fields B _ _ Hrec).
  - unfold Italy.get_page, mbind, M_bind, requests_get, lift, mret, M_ret.
    cbn [fetched console files].
    destruct (http_get W url user_agent_headers) as [r|e]; [|discriminate].
    destruct (Italy.scrape_page (BeautifulSoup W (text r))) as [data|e] eqn:Hrec;
      [|discriminate].
    intros H. inversion H; subst. apply (extract_fields C _ _ Hrec).
Qed.

Lemma crawl_loop_fields (v : variant) (W : web) (fuel : nat) :
  forall (acc : list record) (next_url : option str) (w w' : world)
         (data : list record),
    Forall (fun r => dict_keys r = fields v) acc ->
    crawl_loop (loop_body v W) fuel acc next_url w = (w', Done data) ->
    Forall (fun r => dict_keys r = fields v) data.
Proof.
  induction fuel as [|fuel IH]; intros acc next_url w w' data Hacc H.
  - destruct next_url as [url|]; cbn [crawl_loop] in H;
      [destruct (str_truthy url)|]; inversion H; subst; exact Hacc.
  - destruct next_url as [url|]; [|inversion H; subst; exact Hacc].
    destruct (str_truthy url) eqn:Hu.
    + rewrite crawl_loop_step in H by exact Hu.
      destruct (loop_body v W url w) as [w1 [[d n]|e|]] eqn:Hbody;
        [|discriminate|discriminate].
      apply (IH _ _ _ _ _ (Forall_app_2 _ _ _ Hacc
                             (loop_body_fields _ _ _ _ _ _ _ Hbody)) H).
    + cbn [crawl_loop] in H. rewrite Hu in H. inversion H; subst. exact Hacc.
Qed.

(** X2. All the records a crawl returns have the field names of its script,
    in the same key order. *)
Lemma crawl_fields (v : variant) (W : web) (fuel : nat) (start : str)
    (w w' : world) (data : list record) :
  crawl v W fuel start w = (w', Done data) ->
  Forall (fun r => dict_keys r = fields v) data.
Proof.
  intros H.
  apply (crawl_loop_fields v W fuel [] (Some start) w w' data (Forall_nil_2 _)).
  destruct v; exact H.
Qed.

Lemma fields_same (ks : list str) (d0 : record) (rest : list record) :
  Forall (fun r => dict_keys r = ks) (d0 :: rest) -> same_fields d0 rest.
Proof.
  intros H. apply Forall_cons in H. destruct H as [H0 Hrest].
  unfold same_fields. induction Hrest as [|d rest Hd _ IH]; constructor;
    [|exact IH].
  intros k. rewrite Hd, H0. reflexivity.
Qed.

Lemma fields_accepted (ks : list str) (d0 : record) (rest : list record) :
  Forall (fun r => dict_keys r = ks) (d0 :: rest) ->
  Forall (fun d => forall k, k ∈ dict_keys d -> k ∈ dict_keys d0) rest.
Proof. intros H. apply same_fields_accepted, (fields_same ks). exact H. Qed.

(** X4. The German script from end to end: when the crawl returns records
    and none of them holds a lone surrogate, [main] leaves in
    [devices_data.csv] the header and one row per record, in the order of
    the crawl. *)
Lemma german_main_writes_table (W : web) (fuel : nat) (w w' : world)
    (d0 : record) (rest : list record) :
  German.get_data W fuel German.start_url
    (World (fetched w)
           (console w ++ [[PStr (py "Starting the data collection process...")]])
           (files w))
  = (w', Done (d0 :: rest)) ->
  Forall (fun d => encodable d = true) (d0 :: rest) ->
  exists c,
    German.main W fuel w
    = (World (fetched w') c
             (<[py "devices_data.csv" := table_of d0 (d0 :: rest)]> (files w')),
       Done tt).
Proof.
  intros H Henc. unfold German.main, mbind, M_bind, print at 1.
  cbn [fetched console files]. rewrite H. cbn [list_truthy].
  unfold print. cbn [fetched console files].
  pose proof (crawl_loop_fields B W fuel [] _ _ _ _ (Forall_nil_2 _) H) as Hf.
  pose proof (german_sink_table d0 rest (py "devices_data.csv")
                (World (fetched w')
                   (console w' ++ [[PStr (py "Writing the collected data to a CSV file...")]])
                   (files w')) (fields_same _ _ _ Hf) Henc) as Hsink.
  rewrite Hsink. eexists. reflexivity.
Qed.

Lemma crawl_fields_witness :
  Forall (fun r => dict_keys r = fields A)
    [[(py "title", VStr (py "Recall A"));
      (py "warning_text", VStr (py "text A"));
      (py "date", VStr (py "2023-01-01"))];
     [(py "title", VStr (py "Recall B"));
      (py "warning_text", VStr (py "text B"));
      (py "date", VStr (py "2023-01-02"))];
     [(py "title", VStr (py "Recall C"));
      (py "warning_text", VStr (py "text C"));
      (py "date", VStr (py "2023-01-03"))]].
Proof.
  apply (crawl_fields A Fixtures.dutch_web 5 Dutch.start_url
           Fixtures.empty_world
           (Dutch.get_data Fixtures.dutch_web 5 Dutch.start_url
              Fixtures.empty_world).1).
  vm_compute. reflexivity.
Defined.

Lemma german_main_writes_table_witness :
  exists c,
    German.main Fixtures.german_web 5 Fixtures.old_world
    = (World [German.start_url; py "http://bfarm.example/page2"] c
         (<[py "devices_data.csv" :=
              [[VStr (py "date"); VStr (py "device"); VStr (py "device_type");
                VStr (py "device_reference")];
               [VStr (py "2023-05-01"); VStr (py "Pump X");
                VStr (py "Infusion"); VStr (py "01234/23")];
               [VStr (py "2023-05-02"); VStr (py "N/A"); VStr (py "N/A");
                VStr (py "N/A")];
               [VStr (py "2023-04-01"); VStr (py "Pump X");
                VStr (py "Infusion"); VStr (py "01234/23")]]]>
            (files Fixtures.old_world)),
       Done tt).
Proof.
  apply (german_main_writes_table Fixtures.german_web 5 Fixtures.old_world
           (German.get_data Fixtures.german_web 5 German.start_url
              (World [] [[PStr (py "Starting the data collection process...")]]
                     (files Fixtures.old_world))).1
           (german_fields (py "2023-05-01") (py "Pump X")
              (VStr (py "Infusion")) (VStr (py "01234/23")))
           [german_fields (py "2023-05-02") (py "N/A")
              (VStr (py "N/A")) (VStr (py "N/A"));
            german_fields (py "2023-04-01") (py "Pump X")
              (VStr (py "Infusion")) (VStr (py "01234/23"))]).
  - vm_compute. reflexivity.
  - repeat constructor.
Defined.

Lemma remove_surrogates_filter_witness :
  remove_surrogates [68; 101; 118; 0xD83D; 50] = [68; 101; 118; 50].
Proof.
  rewrite remove_surrogates_filter; [reflexivity|].
  repeat (constructor; [unfold is_code_point; lia|]). constructor.
Defined.

(** The Dutch and the Italian resolver never fail: each answers the [href]
    of the anchor of the next-page element, or [None] when the element, its
    anchor or the [href] is missing. *)
Lemma dutch_and_italian_resolvers_total (soup : element) (w : world) :
  (exists c,
     Dutch.next_url_of soup w
     = (World (fetched w) c (files w),
        Done (a ← next_anchor A soup; get a (py "href"))))
  /\ Italy.get_next_page soup = (a ← next_anchor C soup; get a (py "href")).
Proof. split; [apply dutch_next_url_of_spec | reflexivity]. Qed.


(** * Further properties of the scripts *)

(** ** What a crawl does to the world *)

(** One pass of any script, whatever the web answers: one request is
    logged, no file is touched, and the pass returns or raises. *)
Lemma loop_body_effects (v : variant) (W : web) (url : str) (w : world) :
  exists c o,
    loop_body v W url w = (World (fetched w ++ [url]) c (files w), to_outcome o).
Proof.
  destruct v; unfold loop_body.
  - unfold Dutch.get_data_page, try_except, mbind, M_bind, print,
      requests_get, lift. cbn [fetched console files].
    destruct (http_get W url user_agent_headers) as [r|e].
    + destruct (Dutch.page_records (BeautifulSoup W (text r))) as [data|e].
      * match goal with |- context [Dutch.next_url_of ?s ?w0] =>
          destruct (dutch_next_url_of_spec s w0) as [c Hc]; rewrite Hc end.
        cbn [fetched files]. eexists _, (Return _). reflexivity.
      * eexists _, (Return _). reflexivity.
    + eexists _, (Return _). reflexivity.
  - unfold German.get_data_page, mbind, M_bind, print, requests_get, lift.
    cbn [fetched console files].
    destruct (http_get W url user_agent_headers) as [r|e];
      [|eexists _, (Raise _); reflexivity].
    destruct (German.page_records (BeautifulSoup W (text r))) as [data|e];
      [|eexists _, (Raise _); reflexivity].
    destruct (German.next_url_of (BeautifulSoup W (text r))) as [n|e];
      [eexists _, (Return _)|eexists _, (Raise _)]; reflexivity.
  - unfold Italy.get_page, mbind, M_bind, requests_get, lift, mret, M_ret.
    cbn [fetched console files].
    destruct (http_get W url user_agent_headers) as [r|e];
      [|eexists _, (Raise _); reflexivity].
    destruct (Italy.scrape_page (BeautifulSoup W (text r))) as [data|e];
      [eexists _, (Return _)|eexists _, (Raise _)]; reflexivity.
Qed.

Lemma crawl_is_loop (v : variant) (W : web) (fuel : nat) (start : str) :
  crawl v W fuel start = crawl_loop (loop_body v W) fuel [] (Some start).
Proof. destruct v; reflexivity. Qed.

Lemma crawl_loop_effects (v : variant) (W : web) (fuel : nat) :
  forall (acc : list record) (next_url : option str) (w : world),
  exists trace c o,
    crawl_loop (loop_body v W) fuel acc next_url w
    = (World (fetched w ++ trace) c (files w), o)
    /\ (length trace <= fuel)%nat
    /\ Forall (fun url => str_truthy url = true) trace
    /\ (o = OutOfFuel -> length trace = fuel).
Proof.
  induction fuel as [|fuel IH]; intros acc next_url w.
  - exists [], (console w).
    destruct next_url as [url|]; cbn [crawl_loop];
      [destruct (str_truthy url)|]; eexists; rewrite app_nil_r;
      (split; [destruct w; reflexivity|]);
      (split; [reflexivity|]); (split; [constructor|]);
      try reflexivity; discriminate.
  - destruct next_url as [url|].
    + destruct (str_truthy url) eqn:Hu.
      * rewrite crawl_loop_step by exact Hu.
        destruct (loop_body_effects v W url w) as (c & o & Hb). rewrite Hb.
        destruct o as [[d n]|e]; cbn [to_outcome].
        -- destruct (IH (acc ++ d) n (World (fetched w ++ [url]) c (files w)))
             as (trace & c' & o' & Hrun & Hlen & Ht & Hfuel).
           rewrite Hrun. cbn [fetched files].
           exists (url :: trace), c', o'. rewrite <- app_assoc.
           split; [reflexivity|]. cbn [length].
           split; [lia|]. split; [constructor; assumption|].
           intros Ho. rewrite (Hfuel Ho). reflexivity.
        -- exists [url], c, (Raised e). split; [reflexivity|]. cbn [length].
           split; [lia|]. split; [repeat constructor; exact Hu|discriminate].
      * exists [], (console w), (Done acc). cbn [crawl_loop]. rewrite Hu.
        rewrite app_nil_r.
        split; [destruct w; reflexivity|]. cbn [length].
        split; [lia|]. split; [constructor|discriminate].
    + exists [], (console w), (Done acc). cbn [crawl_loop]. rewrite app_nil_r.
      split; [destruct w; reflexivity|]. cbn [length].
      split; [lia|]. split; [constructor|discriminate].
Qed.

(** X5. A crawl never touches a file and only appends to the log of
    requests: at most one request per pass of the loop, each to a
    non-empty URL, whatever the web answers and however the crawl ends. *)
Theorem crawl_only_requests (v : variant) (W : web) (fuel : nat)
    (start : str) (w : world) :
  exists trace : list str,
    fetched (crawl v W fuel start w).1 = fetched w ++ trace
    /\ (length trace <= fuel)%nat
    /\ Forall (fun url => str_truthy url = true) trace
    /\ files (crawl v W fuel start w).1 = files w.
Proof.
  rewrite crawl_is_loop.
  destruct (crawl_loop_effects v W fuel [] (Some start) w)
    as (trace & c & o & Hrun & Hlen & Ht & _).
  exists trace. rewrite Hrun. cbn [fst fetched files]. auto.
Qed.

(** ** The Dutch crawl never raises *)

Lemma dutch_pass_done (W : web) (url : str) (w : world) :
  exists w1 d n, loop_body A W url w = (w1, Done (d, n)).
Proof.
  unfold loop_body, Dutch.get_data_page, try_except, mbind, M_bind, print,
    requests_get, lift. cbn [fetched console files].
  destruct (http_get W url user_agent_headers) as [r|e].
  - destruct (Dutch.page_records (BeautifulSoup W (text r))) as [data|e].
    + match goal with |- context [Dutch.next_url_of ?s ?w0] =>
        destruct (dutch_next_url_of_spec s w0) as [c Hc]; rewrite Hc end.
      eexists _, _, _. reflexivity.
    + eexists _, _, _. reflexivity.
  - eexists _, _, _. reflexivity.
Qed.

Lemma dutch_loop_never_raises (W : web) (fuel : nat) :
  forall (acc : list record) (next_url : option str) (w : world),
  exists w',
    crawl_loop (loop_body A W) fuel acc next_url w = (w', OutOfFuel)
    \/ exists data,
         crawl_loop (loop_body A W) fuel acc next_url w = (w', Done data).
Proof.
  induction fuel as [|fuel IH]; intros acc next_url w.
  - destruct next_url as [url|]; cbn [crawl_loop];
      [destruct (str_truthy url)|]; eexists;
      try (right; eexists; reflexivity); left; reflexivity.
  - destruct next_url as [url|]; [|eexists; right; eexists; reflexivity].
    destruct (str_truthy url) eqn:Hu.
    + rewrite crawl_loop_step by exact Hu.
      destruct (dutch_pass_done W url w) as (w1 & d & n & Hb). rewrite Hb.
      apply IH.
    + cbn [crawl_loop]. rewrite Hu. eexists; right; eexists; reflexivity.
Qed.

(** X6. The Dutch [get_data] never raises, whatever the web answers: a
    transport failure or a malformed page ends the crawl with the records
    collected before it (a crawl still running when the fuel is spent is
    the only other outcome). *)
Theorem dutch_get_data_never_raises (W : web) (fuel : nat) (start : str)
    (w : world) :
  exists w',
    Dutch.get_data W fuel start w = (w', OutOfFuel)
    \/ exists data, Dutch.get_data W fuel start w = (w', Done data).
Proof. apply (dutch_loop_never_raises W fuel [] (Some start) w). Qed.

(** ** Crawls that do not end *)

Lemma crawl_loop_endless (v : variant) (W : web) (linked : str -> Prop) :
  (forall url, linked url ->
     str_truthy url = true
     /\ exists page url', serves W url page /\ resolves v page url'
                          /\ linked url') ->
  forall (fuel : nat) (url : str) (acc : list record) (w : world),
    linked url ->
    exists w',
      crawl_loop (loop_body v W) fuel acc (Some url) w = (w', OutOfFuel)
      /\ length (fetched w') = (length (fetched w) + fuel)%nat
      /\ files w' = files w.
Proof.
  intros Hclosed. induction fuel as [|fuel IH]; intros url acc w Hurl;
    destruct (Hclosed url Hurl) as (Hu & page & url' & Hserves & Hres & Hnext).
  - cbn [crawl_loop]. rewrite Hu. exists w. split; [reflexivity|].
    split; [lia|reflexivity].
  - rewrite crawl_loop_step by exact Hu.
    destruct (loop_body_fetches_once v W url page Hserves w) as [c Hc].
    destruct (page_outcome_resolves v page url' Hres) as [data Hdata].
    rewrite Hc, Hdata. cbn [to_outcome].
    destruct (IH url' (acc ++ data) (World (fetched w ++ [url]) c (files w)) Hnext)
      as (w' & Hrun & Hlen & Hfiles).
    exists w'. split; [exact Hrun|]. cbn [fetched files] in *.
    rewrite length_app in Hlen. cbn [length] in Hlen.
    split; [lia|exact Hfiles].
Qed.

(** X7. The loop has no bound of its own and does not detect cycles. On a
    set of pages each of which resolves a link to a page of the set (a page
    that links to itself, a cycle), the crawl of each script never ends: it
    spends any fuel, one request per pass, and writes nothing. *)
Theorem crawl_cycle_never_ends (v : variant) (W : web) (linked : str -> Prop)
    (fuel : nat) (start : str) (w : world) :
  (forall url, linked url ->
     str_truthy url = true
     /\ exists page url', serves W url page /\ resolves v page url'
                          /\ linked url') ->
  linked start ->
  exists w',
    crawl v W fuel start w = (w', OutOfFuel)
    /\ length (fetched w') = (length (fetched w) + fuel)%nat
    /\ files w' = files w.
Proof.
  intros Hclosed Hstart. rewrite crawl_is_loop.
  apply (crawl_loop_endless v W linked Hclosed fuel start [] w Hstart).
Qed.

Lemma crawl_cycle_witness :
  exists w',
    crawl A Fixtures.dutch_self_web 7 (py "https://igj.example/loop")
      Fixtures.empty_world = (w', OutOfFuel)
    /\ length (fetched w') = (0 + 7)%nat
    /\ files w' = ∅.
Proof.
  apply (crawl_cycle_never_ends A Fixtures.dutch_self_web
           (fun url => url = py "https://igj.example/loop")
           7 (py "https://igj.example/loop") Fixtures.empty_world);
    [|reflexivity].
  intros url ->. split; [reflexivity|].
  exists Fixtures.dutch_self_page, (py "https://igj.example/loop").
  split; [serve_page (py "https://igj.example/loop")|].
  split; [resolve_link|reflexivity].
Defined.

(** ** The extractors, element by element *)

Lemma german_rows_collect (trs : list element) :
  forall acc, German.rows_data trs acc = collect (element_record B) trs acc.
Proof.
  induction trs as [|tr trs IH]; intros acc; cbn [German.rows_data collect];
    [reflexivity|].
  cbn [element_record]. destruct (German.row_data tr) as [o|e];
    cbn [mbind result_bind]; [apply IH|reflexivity].
Qed.

Lemma dutch_links_collect (links : list element) :
  forall acc, Dutch.links_data links acc = collect (element_record A) links acc.
Proof.
  induction links as [|link links IH]; intros acc;
    cbn [Dutch.links_data collect]; [reflexivity|].
  cbn [element_record]. destruct (Dutch.link_data link) as [d|e];
    cbn [mbind result_bind]; [apply IH|reflexivity].
Qed.

Lemma italy_rows_collect (rows : list element) :
  forall acc, Italy.rows_data rows acc = collect (element_record C) rows acc.
Proof.
  induction rows as [|row rows IH]; intros acc;
    cbn [Italy.rows_data collect]; [reflexivity|].
  cbn [element_record]. destruct (Italy.row_data row) as [d|e];
    cbn [mbind result_bind]; [apply IH|reflexivity].
Qed.

(** The three extractors are one loop over the repeated elements. *)
Lemma extract_collect (v : variant) (soup : element) :
  extract v soup = collect (element_record v) (repeating_elements v soup) [].
Proof.
  destruct v; cbn [extract repeating_elements].
  - apply dutch_links_collect.
  - apply german_rows_collect.
  - unfold Italy.scrape_page. destruct (find soup Italy.is_table);
      [apply italy_rows_collect|reflexivity].
Qed.

(** An element gives nothing exactly when it is one the extractor passes
    over. *)
Lemma element_record_skipped (v : variant) (e : element)
    (o : option record) :
  element_record v e = Return o ->
  skipped v e = match o with None => true | Some _ => false end.
Proof.
  destruct v; cbn [element_record skipped].
  - destruct (Dutch.link_data e); cbn [mbind result_bind]; intros H;
      inversion H; reflexivity.
  - unfold German.row_data, mbind, result_bind.
    destruct (length (find_all e (named (py "td"))) <? 2)%nat;
      intros H; [inversion H; reflexivity|].
    split_result H; inversion H; reflexivity.
  - destruct (Italy.row_data e); cbn [mbind result_bind]; intros H;
      inversion H; reflexivity.
Qed.

Lemma collect_return (v : variant) (els : list element) :
  forall acc data,
    collect (element_record v) els acc = Return data ->
    exists new,
      data = acc ++ new
      /\ Forall2 (fun e d => element_record v e = Return (Some d))
                 (List.filter (fun e => negb (skipped v e)) els) new.
Proof.
  induction els as [|e els IH]; intros acc data H; cbn [collect] in H.
  - inversion H; subst. exists []. rewrite app_nil_r. split; [reflexivity|].
    constructor.
  - destruct (element_record v e) as [o|ex] eqn:He;
      cbn [mbind result_bind] in H; [|discriminate].
    pose proof (element_record_skipped v e o He) as Hs.
    destruct (IH _ _ H) as (new & Hdata & Hall).
    cbn [List.filter]. rewrite Hs. destruct o as [d|]; cbn [negb].
    + exists (d :: new). rewrite Hdata, <- app_assoc. split; [reflexivity|].
      constructor; assumption.
    + exists new. split; assumption.
Qed.

Lemma collect_raise (f : element -> result (option record))
    (els : list element) :
  forall acc ex,
    collect f els acc = Raise ex ->
    exists before el after,
      els = before ++ el :: after
      /\ f el = Raise ex
      /\ Forall (fun x => exists o, f x = Return o) before.
Proof.
  induction els as [|e els IH]; intros acc ex H; cbn [collect] in H;
    [discriminate|].
  destruct (f e) as [o|ex'] eqn:He; cbn [mbind result_bind] in H.
  - destruct (IH _ _ H) as (before & el' & after & Hels & Hel & Hb).
    exists (e :: before), el', after. rewrite Hels.
    split; [reflexivity|]. split; [exact Hel|].
    constructor; [exists o; exact He|exact Hb].
  - inversion H; subst. exists [], e, els.
    split; [reflexivity|]. split; [exact He|constructor].
Qed.

(** X8. When an extractor returns, its records are those of the repeated
    elements of the page, one per element and in document order; only the
    German one passes over elements, the rows with fewer than two cells. *)
Theorem extract_one_record_per_element (v : variant) (soup : element)
    (data : list record) :
  extract v soup = Return data ->
  Forall2 (fun e d => element_record v e = Return (Some d))
          (List.filter (fun e => negb (skipped v e))
                       (repeating_elements v soup))
          data.
Proof.
  rewrite extract_collect. intros H.
  destruct (collect_return v _ _ _ H) as (new & Hdata & Hall).
  cbn [app] in Hdata. subst. exact Hall.
Qed.

(** X9. When an extractor raises, the exception is that of the first
    repeated element that raises; the records of the elements before it
    are lost with it. *)
Theorem extract_raises_first_failure (v : variant) (soup : element)
    (ex : exn) :
  extract v soup = Raise ex ->
  exists before el after,
    repeating_elements v soup = before ++ el :: after
    /\ element_record v el = Raise ex
    /\ Forall (fun x => exists o, element_record v x = Return o) before.
Proof.
  rewrite extract_collect. apply collect_raise.
Qed.

Lemma extract_one_record_per_element_witness :
  Forall2 (fun e d => element_record B e = Return (Some d))
    (List.filter (fun e => negb (skipped B e))
                 (repeating_elements B (root Fixtures.german_page1)))
    [german_fields (py "2023-05-01") (py "Pump X")
       (VStr (py "Infusion")) (VStr (py "01234/23"));
     german_fields (py "2023-05-02") (py "N/A")
       (VStr (py "N/A")) (VStr (py "N/A"))].
Proof.
  apply (extract_one_record_per_element B (root Fixtures.german_page1)).
  vm_compute. reflexivity.
Defined.

Lemma extract_raises_first_failure_witness :
  exists before el after,
    repeating_elements A (root Fixtures.dutch_page_no_h3)
    = before ++ el :: after
    /\ element_record A el = Raise AttributeError
    /\ Forall (fun x => exists o, element_record A x = Return o) before.
Proof.
  apply (extract_raises_first_failure A (root Fixtures.dutch_page_no_h3)).
  vm_compute. reflexivity.
Defined.

(** ** The sink on records of different shapes *)

Lemma key_refused (fieldnames : list str) (d : record) (k : str) :
  k ∈ dict_keys d -> k ∉ fieldnames ->
  forallb (fun k => bool_decide (k ∈ fieldnames)) (dict_keys d) = false.
Proof.
  intros Hk Hnot.
  destruct (forallb (fun k => bool_decide (k ∈ fieldnames)) (dict_keys d))
    eqn:Hall; [|reflexivity].
  rewrite forallb_forall in Hall.
  specialize (Hall k (proj1 (list_elem_of_In _ _) Hk)).
  apply bool_decide_eq_true in Hall. contradiction.
Qed.

(** Rows are written until the first record with a key that is no field
    name; that record raises ValueError. *)
Lemma writerows_stops (filename : str) (fieldnames : list str)
    (good : list record) (bad : record) (rest : list record) (k : str) :
  Forall (fun d => forall k, k ∈ dict_keys d -> k ∈ fieldnames) good ->
  Forall (fun d => encodable d = true) good ->
  k ∈ dict_keys bad -> k ∉ fieldnames ->
  forall (w : world) (content : list row),
    files w !! filename = Some content ->
    writerows filename fieldnames (good ++ bad :: rest) w
    = (World (fetched w) (console w)
             (<[filename := content ++ map (row_of fieldnames) good]> (files w)),
       Raised ValueError).
Proof.
  intros Hgood Henc Hk Hnot. revert Henc.
  induction Hgood as [|d good Hd _ IH]; intros Henc w content Hfile.
  - cbn [app writerows map]. unfold mbind, M_bind, dict_writerow, lift.
    rewrite (key_refused _ _ _ Hk Hnot).
    rewrite app_nil_r, insert_id by exact Hfile. destruct w; reflexivity.
  - apply Forall_cons in Henc. destruct Henc as [He Henc].
    cbn [app writerows map]. unfold mbind, M_bind, dict_writerow.
    rewrite keys_accepted by exact Hd.
    unfold writerow at 1.
    change (map (fun key => dict_get d key (VStr [])) fieldnames)
      with (row_of fieldnames d).
    rewrite (row_encodable fieldnames d He), Hfile. cbn [default].
    fold (writerows filename fieldnames (good ++ bad :: rest)).
    rewrite (IH Henc _ (content ++ [row_of fieldnames d]))
      by (cbn [files]; apply lookup_insert_eq).
    cbn [fetched console files].
    rewrite insert_insert_eq, <- app_assoc. reflexivity.
Qed.

(** X10. A record with a key the first record does not have stops the
    sink: [csv.DictWriter] raises ValueError, and the file keeps the
    header and the rows of the records before it (records that can be
    encoded). *)
Theorem sink_raises_on_extra_key
    (d0 : record) (good : list record) (bad : record) (rest : list record)
    (k : str) (filename : str) (w : world) :
  Forall (fun d => forall k, k ∈ dict_keys d -> k ∈ dict_keys d0) good ->
  Forall (fun d => encodable d = true) (d0 :: good) ->
  k ∈ dict_keys bad -> k ∉ dict_keys d0 ->
  German.write_to_csv (d0 :: good ++ bad :: rest) filename w
  = (World (fetched w)
           (console w ++ [[PStr (py "Writing data to: " ++ filename)]])
           (<[filename := table_of d0 (d0 :: good)]> (files w)),
     Raised ValueError)
  /\ Dutch.write_to_csv (d0 :: good ++ bad :: rest) filename w
     = German.write_to_csv (d0 :: good ++ bad :: rest) filename w
  /\ Italy.save_to_csv (d0 :: good ++ bad :: rest) filename w
     = (World (fetched w) (console w)
              (<[filename := table_of d0 (d0 :: good)]> (files w)),
        Raised ValueError).
Proof.
  intros Hgood Henc Hk Hnot.
  assert (Hall : Forall (fun d => forall k, k ∈ dict_keys d -> k ∈ dict_keys d0)
                        (d0 :: good))
    by (constructor; [auto|exact Hgood]).
  pose proof (header_encodable d0 (Forall_inv Henc)) as Hheader.
  split; [|split; [reflexivity|]].
  - unfold German.write_to_csv, mbind, M_bind, print, open_w, lift, writeheader.
    rewrite py_index_0. unfold writerow at 1. rewrite Hheader.
    cbn [fetched console files].
    rewrite lookup_insert_eq. cbn [default app].
    rewrite (writerows_stops filename (dict_keys d0) (d0 :: good) bad rest k
               Hall Henc Hk Hnot _ [map VStr (dict_keys d0)])
      by (cbn [files]; apply lookup_insert_eq).
    cbn [fetched console files]. rewrite !insert_insert_eq. reflexivity.
  - unfold Italy.save_to_csv, list_truthy, mbind, M_bind, open_w, lift,
      writeheader.
    rewrite py_index_0. unfold writerow at 1. rewrite Hheader.
    cbn [fetched console files].
    rewrite lookup_insert_eq. cbn [default app].
    rewrite (writerows_stops filename (dict_keys d0) (d0 :: good) bad rest k
               Hall Henc Hk Hnot _ [map VStr (dict_keys d0)])
      by (cbn [files]; apply lookup_insert_eq).
    cbn [fetched console files]. rewrite !insert_insert_eq. reflexivity.
Qed.

Lemma sink_raises_on_extra_key_witness :
  German.write_to_csv
    [Fixtures.record_title; Fixtures.record_title;
     Fixtures.record_title_note; Fixtures.record_title]
    (py "devices_data.csv") Fixtures.old_world
  = (World [] [[PStr (py "Writing data to: devices_data.csv")]]
       (<[py "devices_data.csv" :=
            [[VStr (py "title")]; [VStr (py "Recall A")];
             [VStr (py "Recall A")]]]> (files Fixtures.old_world)),
     Raised ValueError).
Proof.
  destruct (sink_raises_on_extra_key Fixtures.record_title
              [Fixtures.record_title] Fixtures.record_title_note
              [Fixtures.record_title] (py "note")
              (py "devices_data.csv") Fixtures.old_world) as (HG & _ & _).
  - constructor; [auto|constructor].
  - repeat constructor.
  - apply list_elem_of_In. right. left. reflexivity.
  - intros H. apply list_elem_of_In in H.
    destruct H as [H|[]]. vm_compute in H. discriminate H.
  - exact HG.
Defined.

Lemma lookup_map_Some {X Y} (f : X -> Y) (l : list X) (i : nat) (x : X) :
  l !! i = Some x -> map f l !! i = Some (f x).
Proof.
  revert i. induction l as [|x0 l IH]; intros [|i] H; cbn in *;
    try discriminate.
  - inversion H; subst. reflexivity.
  - apply IH. exact H.
Qed.

(** The cell of a record under a field name. *)
Lemma table_of_cell (d0 : record) (data : list record) (j i : nat)
    (d : record) (key : str) :
  data !! j = Some d ->
  dict_keys d0 !! i = Some key ->
  (table_of d0 data !! S j) ≫= (fun r : row => r !! i)
  = Some (default (VStr []) (assoc key d)).
Proof.
  intros Hd Hkey. unfold table_of.
  pose proof (lookup_map_Some
                (fun d1 : record =>
                   map (fun key0 : str => dict_get d1 key0 (VStr []))
                       (dict_keys d0)) data j d Hd) as Hrow.
  pose proof (lookup_map_Some (fun key0 : str => dict_get d key0 (VStr []))
                (dict_keys d0) i key Hkey) as Hcell.
  change ((?h :: ?t) !! S j) with (t !! j).
  etransitivity; [apply (f_equal (fun o => o ≫= (fun r : row => r !! i)) Hrow)|].
  cbn [mbind option_bind]. exact Hcell.
Qed.

(** X11. Records may lack keys of the first record: when none of them
    holds a lone surrogate, the sink still writes every row, and the cell
    of a record under a field name it lacks is the empty string.  The
    other files are left as they were, and what the output file held
    before is gone. *)
Theorem sink_fills_missing_keys
    (d0 : record) (rest : list record) (filename : str) (w : world) :
  Forall (fun d => forall k, k ∈ dict_keys d -> k ∈ dict_keys d0) rest ->
  Forall (fun d => encodable d = true) (d0 :: rest) ->
  exists t : list row,
    German.write_to_csv (d0 :: rest) filename w
    = (World (fetched w)
             (console w ++ [[PStr (py "Writing data to: " ++ filename)]])
             (<[filename := t]> (files w)),
       Done tt)
    /\ Italy.save_to_csv (d0 :: rest) filename w
       = (World (fetched w) (console w) (<[filename := t]> (files w)), Done tt)
    /\ length t = S (length (d0 :: rest))
    /\ t !! 0%nat = Some (map VStr (dict_keys d0))
    /\ (forall (j i : nat) (d : record) (key : str),
          (d0 :: rest) !! j = Some d ->
          dict_keys d0 !! i = Some key ->
          (t !! S j) ≫= (fun r : row => r !! i)
          = Some (default (VStr []) (assoc key d)))
    /\ (forall other, other <> filename ->
          <[filename := t]> (files w) !! other = files w !! other).
Proof.
  intros Hrest Henc. exists (table_of d0 (d0 :: rest)).
  split; [apply german_sink_table_incl; assumption|].
  split; [apply italy_sink_table_incl; assumption|].
  split; [unfold table_of; cbn [length]; rewrite length_map; reflexivity|].
  split; [reflexivity|].
  split; [intros j i d key; apply table_of_cell|].
  intros other Hother. apply lookup_insert_ne. congruence.
Qed.

Lemma sink_fills_missing_keys_witness :
  exists t : list row,
    files (German.write_to_csv
             [Fixtures.record_title_date; Fixtures.record_date]
             (py "out.csv") Fixtures.old_world).1
      !! py "out.csv" = Some t
    /\ length t = 3%nat
    /\ t !! 0%nat = Some [VStr (py "title"); VStr (py "date")]
    /\ (t !! 2%nat) ≫= (fun r : row => r !! 0%nat) = Some (VStr [])
    /\ (t !! 2%nat) ≫= (fun r : row => r !! 1%nat) = Some (VStr (py "2024")).
Proof.
  destruct (sink_fills_missing_keys Fixtures.record_title_date
              [Fixtures.record_date] (py "out.csv") Fixtures.old_world)
    as (t & HG & _ & Hlen & H0 & Hcell & _).
  { constructor; [|constructor]. intros k Hk.
    apply list_elem_of_In in Hk. apply list_elem_of_In.
    destruct Hk as [<-|[]]. right. left. reflexivity. }
  { repeat constructor. }
  exists t. rewrite HG. cbn [fst files]. rewrite lookup_insert_eq.
  split; [reflexivity|]. split; [exact Hlen|]. split; [exact H0|].
  split.
  - apply (Hcell 1%nat 0%nat Fixtures.record_date (py "title")); reflexivity.
  - apply (Hcell 1%nat 1%nat Fixtures.record_date (py "date")); reflexivity.
Defined.

(** ** The scripts from end to end *)

(** X12. The Dutch script, when its crawl returns records none of which
    holds a lone surrogate: the output file holds the header and one row
    per record, in the order of the crawl, and the script ends normally. *)
Theorem dutch_script_writes_table (W : web) (fuel : nat) (w w' : world)
    (d0 : record) (rest : list record) :
  Dutch.get_data W fuel Dutch.start_url w = (w', Done (d0 :: rest)) ->
  Forall (fun d => encodable d = true) (d0 :: rest) ->
  Dutch.script W fuel w
  = (World (fetched w')
           (console w' ++ [[PStr (py "Writing data to: devices_data.csv")]])
           (<[py "devices_data.csv" := table_of d0 (d0 :: rest)]> (files w')),
     Done tt).
Proof.
  intros H Henc. unfold Dutch.script, mbind, M_bind. rewrite H.
  pose proof (crawl_loop_fields A W fuel [] _ _ _ _ (Forall_nil_2 _) H) as Hf.
  apply (german_sink_table d0 rest (py "devices_data.csv") w'
           (fields_same _ _ _ Hf) Henc).
Qed.

Lemma dutch_script_writes_table_witness :
  fetched (Dutch.script Fixtures.dutch_web 5 Fixtures.empty_world).1
  = [Dutch.start_url; py "https://igj.example/page2"]
  /\ (Dutch.script Fixtures.dutch_web 5 Fixtures.empty_world).2 = Done tt
  /\ files (Dutch.script Fixtures.dutch_web 5 Fixtures.empty_world).1
       !! py "devices_data.csv"
     = Some [[VStr (py "title"); VStr (py "warning_text"); VStr (py "date")];
             [VStr (py "Recall A"); VStr (py "text A"); VStr (py "2023-01-01")];
             [VStr (py "Recall B"); VStr (py "text B"); VStr (py "2023-01-02")];
             [VStr (py "Recall C"); VStr (py "text C"); VStr (py "2023-01-03")]].
Proof.
  rewrite (dutch_script_writes_table Fixtures.dutch_web 5 Fixtures.empty_world
             (Dutch.get_data Fixtures.dutch_web 5 Dutch.start_url
                Fixtures.empty_world).1
             [(py "title", VStr (py "Recall A"));
              (py "warning_text", VStr (py "text A"));
              (py "date", VStr (py "2023-01-01"))]
             [[(py "title", VStr (py "Recall B"));
               (py "warning_text", VStr (py "text B"));
               (py "date", VStr (py "2023-01-02"))];
              [(py "title", VStr (py "Recall C"));
               (py "warning_text", VStr (py "text C"));
               (py "date", VStr (py "2023-01-03"))]]);
    [|vm_compute; reflexivity|repeat constructor].
  cbn [fst snd fetched files]. rewrite lookup_insert_eq.
  split; [vm_compute; reflexivity|]. split; [reflexivity|].
  vm_compute. reflexivity.
Defined.

Lemma bind_run {X Y} (m : M X) (f : X -> M Y) (w : world) :
  (m ≫= f) w
  = match m w with
    | (w', Done a) => f a w'
    | (w', Raised e) => (w', Raised e)
    | (w', OutOfFuel) => (w', OutOfFuel)
    end.
Proof. reflexivity. Qed.

(** The header of the records of a crawl is always written: the field
    names are those of the script. *)
Lemma crawl_header_written (v : variant) (d0 : record) (data : list record) :
  dict_keys d0 = fields v ->
  head (written (table_of d0 data)) = Some (map VStr (fields v)).
Proof.
  intros H. unfold table_of. rewrite H. destruct v; reflexivity.
Qed.

(** X13. How the Dutch script can end, whatever the web answers.  The
    crawl never raises and touches no file.  When it is still running as
    the fuel is spent, so is the script.  After a crawl without records
    the script ends with IndexError, [devices_data.csv] emptied.  After a
    crawl with records, the sink writes their table to [devices_data.csv]:
    the whole table, ending normally, or, when a record holds a lone
    surrogate, the header and the rows before that record, ending with
    UnicodeEncodeError.  No other file is touched. *)
Theorem dutch_script_outcomes (W : web) (fuel : nat) (w : world) :
  exists (w1 : world) (o1 : outcome (list record)),
    Dutch.get_data W fuel Dutch.start_url w = (w1, o1)
    /\ files w1 = files w
    /\ match o1 with
       | OutOfFuel => Dutch.script W fuel w = (w1, OutOfFuel)
       | Raised _ => False
       | Done [] =>
           Dutch.script W fuel w
           = (World (fetched w1)
                    (console w1
                     ++ [[PStr (py "Writing data to: devices_data.csv")]])
                    (<[py "devices_data.csv" := []]> (files w)),
              Raised IndexError)
       | Done (d0 :: rest) =>
           exists (content : list row) (o : outcome unit),
             sink_leaves (table_of d0 (d0 :: rest)) content o
             /\ head content = Some (map VStr (fields A))
             /\ Dutch.script W fuel w
                = (World (fetched w1)
                         (console w1
                          ++ [[PStr (py "Writing data to: devices_data.csv")]])
                         (<[py "devices_data.csv" := content]> (files w)),
                   o)
       end.
Proof.
  unfold Dutch.script. rewrite bind_run.
  change (Dutch.get_data W fuel Dutch.start_url)
    with (crawl_loop (loop_body A W) fuel [] (Some Dutch.start_url)).
  destruct (crawl_loop_effects A W fuel [] (Some Dutch.start_url) w)
    as (trace & c & o & Hrun & _ & _ & _).
  destruct (dutch_loop_never_raises W fuel [] (Some Dutch.start_url) w)
    as [w1 [Hout|[data Hdone]]].
  - exists w1, OutOfFuel. rewrite Hout in *. inversion Hrun; subst.
    split; [reflexivity|]. split; reflexivity.
  - pose proof (crawl_loop_fields A W fuel [] _ _ _ _ (Forall_nil_2 _) Hdone)
      as Hf.
    exists w1, (Done data). rewrite Hdone in *. inversion Hrun; subst.
    split; [reflexivity|]. split; [reflexivity|]. cbn [fetched console files].
    destruct data as [|d0 rest]; [reflexivity|].
    change Dutch.write_to_csv with German.write_to_csv.
    rewrite (german_sink_upto d0 rest _ _ (fields_accepted _ _ _ Hf)).
    eexists _, _. split; [apply written_leaves|].
    split; [apply crawl_header_written, (Forall_inv Hf)|reflexivity].
Qed.

(** ** The Italian records can be encoded *)

Lemma italy_row_encodable (row : element) (d : record) :
  Italy.row_data row = Return d -> encodable d = true.
Proof.
  unfold Italy.row_data.
  destruct (py_index (find_all row (named (py "td"))) 0) as [c0|];
    cbn [mbind result_bind]; [|discriminate].
  intros H. inversion H; subst. unfold encodable.
  cbn [forallb fst snd value_has_surrogate].
  rewrite remove_surrogates_encodable. reflexivity.
Qed.

Lemma italy_rows_encodable (rows : list element) :
  forall acc data : list record,
    Forall (fun d => encodable d = true) acc ->
    Italy.rows_data rows acc = Return data ->
    Forall (fun d => encodable d = true) data.
Proof.
  induction rows as [|row rows IH]; intros acc data Hacc H;
    cbn [Italy.rows_data] in H.
  - inversion H; subst. exact Hacc.
  - destruct (Italy.row_data row) as [d|e] eqn:Hrow;
      cbn [mbind result_bind] in H; [|discriminate].
    apply (IH _ _ (Forall_app_2 _ _ _ Hacc
                     (Forall_cons_2 _ _ _ (italy_row_encodable _ _ Hrow)
                                    (Forall_nil_2 _))) H).
Qed.

Lemma italy_pass_encodable (W : web) (url : str) (w w1 : world)
    (d : list record) (n : option str) :
  loop_body C W url w = (w1, Done (d, n)) ->
  Forall (fun r => encodable r = true) d.
Proof.
  unfold loop_body, Italy.get_page, mbind, M_bind, requests_get, lift, mret,
    M_ret.
  cbn [fetched console files].
  destruct (http_get W url user_agent_headers) as [r|e]; [|discriminate].
  destruct (Italy.scrape_page (BeautifulSoup W (text r))) as [data|e] eqn:Hrec;
    [|discriminate].
  intros H. inversion H; subst. unfold Italy.scrape_page in Hrec.
  destruct (find (BeautifulSoup W (text r)) Italy.is_table);
    [|inversion Hrec; constructor].
  apply (italy_rows_encodable _ [] d (Forall_nil_2 _) Hrec).
Qed.

(** X14. The Italian [main], when its loop returns: after an empty crawl it
    prints its diagnostic and leaves the files alone; otherwise
    [unified_data.csv] holds the header and one row per record, in the
    order of the crawl.  Either way it ends normally. *)
Theorem italy_main_after_crawl (W : web) (fuel : nat) (w w' : world)
    (data : list record) :
  Italy.main_loop W fuel Italy.base_url w = (w', Done data) ->
  Italy.main W fuel w
  = match data with
    | [] =>
        (World (fetched w')
               (console w' ++ [[PStr (py "No data to write to CSV.")]])
               (files w'),
         Done tt)
    | d0 :: _ =>
        (World (fetched w') (console w')
               (<[py "unified_data.csv" := table_of d0 data]> (files w')),
         Done tt)
    end.
Proof.
  intros H. unfold Italy.main. rewrite bind_run, H.
  pose proof (crawl_loop_fields C W fuel [] _ _ _ _ (Forall_nil_2 _) H) as Hf.
  pose proof (crawl_loop_invariant (loop_body C W) _ (italy_pass_encodable W)
                fuel [] _ _ _ _ (Forall_nil_2 _) H) as Henc.
  destruct data as [|d0 rest]; [reflexivity|].
  apply (italy_sink_table d0 rest (py "unified_data.csv") w'
           (fields_same _ _ _ Hf) Henc).
Qed.

Lemma italy_main_after_crawl_witness :
  files (Italy.main Fixtures.italy_web 5 Fixtures.empty_world).1
    !! py "unified_data.csv"
  = Some [[VStr (py "column_1")]; [VStr (py "Device 1")];
          [VStr (py "Dev2")]; [VStr (py "Device 3")]].
Proof.
  rewrite (italy_main_after_crawl Fixtures.italy_web 5 Fixtures.empty_world
             (Italy.main_loop Fixtures.italy_web 5 Italy.base_url
                Fixtures.empty_world).1
             [[(py "column_1", VStr (py "Device 1"))];
              [(py "column_1", VStr (py "Dev2"))];
              [(py "column_1", VStr (py "Device 3"))]])
    by (vm_compute; reflexivity).
  cbn [fst files]. rewrite lookup_insert_eq. vm_compute. reflexivity.
Defined.

Lemma german_main_run (W : web) (fuel : nat) (w : world) :
  German.main W fuel w
  = match crawl_loop (loop_body B W) fuel [] (Some German.start_url)
            (World (fetched w)
               (console w
                ++ [[PStr (py "Starting the data collection process...")]])
               (files w)) with
    | (w', Done data) =>
        (if list_truthy data then
           print [PStr (py "Writing the collected data to a CSV file...")]
             ≫= fun _ => German.write_to_csv data (py "devices_data.csv")
         else print [PStr (py "No data collected.")]) w'
    | (w', Raised e) => (w', Raised e)
    | (w', OutOfFuel) => (w', OutOfFuel)
    end.
Proof. reflexivity. Qed.

Lemma italy_main_run (W : web) (fuel : nat) (w : world) :
  Italy.main W fuel w
  = match crawl_loop (loop_body C W) fuel [] (Some Italy.base_url) w with
    | (w', Done data) => Italy.save_to_csv data (py "unified_data.csv") w'
    | (w', Raised e) => (w', Raised e)
    | (w', OutOfFuel) => (w', OutOfFuel)
    end.
Proof. reflexivity. Qed.

(** X15. How the Italian and the German [main] end, whatever the web
    answers.  Each reaches its sink only after the whole crawl has
    returned: when a pass of the crawl raises, or the crawl is still
    running as the fuel is spent, [main] ends the same way and every file
    is as it was; after a crawl without records it prints its diagnostic
    and ends normally, every file as it was.  After a crawl with records
    the Italian [main] writes all of them: [unified_data.csv] holds their
    table, and [main] ends normally.  The German [main] writes the table
    to [devices_data.csv] and ends normally, or, when a record holds a
    lone surrogate, ends with UnicodeEncodeError, the file left with the
    header and the rows before that record. *)
Theorem german_and_italian_main_outcomes (W : web) (fuel : nat) (w : world) :
  (exists (w1 : world) (o1 : outcome (list record)),
     Italy.main_loop W fuel Italy.base_url w = (w1, o1)
     /\ files w1 = files w
     /\ Italy.main W fuel w
        = match o1 with
          | Done [] =>
              (World (fetched w1)
                     (console w1 ++ [[PStr (py "No data to write to CSV.")]])
                     (files w),
               Done tt)
          | Done (d0 :: rest) =>
              (World (fetched w1) (console w1)
                     (<[py "unified_data.csv" := table_of d0 (d0 :: rest)]>
                        (files w)),
               Done tt)
          | Raised e => (w1, Raised e)
          | OutOfFuel => (w1, OutOfFuel)
          end)
  /\ (exists (w1 : world) (o1 : outcome (list record)),
        German.get_data W fuel German.start_url
          (World (fetched w)
             (console w
              ++ [[PStr (py "Starting the data collection process...")]])
             (files w))
        = (w1, o1)
        /\ files w1 = files w
        /\ match o1 with
           | Done [] =>
               German.main W fuel w
               = (World (fetched w1)
                        (console w1 ++ [[PStr (py "No data collected.")]])
                        (files w),
                  Done tt)
           | Done (d0 :: rest) =>
               exists (content : list row) (o : outcome unit),
                 sink_leaves (table_of d0 (d0 :: rest)) content o
                 /\ head content = Some (map VStr (fields B))
                 /\ German.main W fuel w
                    = (World (fetched w1)
                         (console w1
                          ++ [[PStr (py "Writing the collected data to a CSV file...")];
                              [PStr (py "Writing data to: devices_data.csv")]])
                         (<[py "devices_data.csv" := content]> (files w)),
                       o)
           | Raised e => German.main W fuel w = (w1, Raised e)
           | OutOfFuel => German.main W fuel w = (w1, OutOfFuel)
           end).
Proof.
  split.
  - rewrite italy_main_run.
    change (Italy.main_loop W fuel Italy.base_url)
      with (crawl_loop (loop_body C W) fuel [] (Some Italy.base_url)).
    destruct (crawl_loop_effects C W fuel [] (Some Italy.base_url) w)
      as (trace & c & o & Hrun & _ & _ & _).
    pose proof (crawl_loop_fields C W fuel [] (Some Italy.base_url) w)
      as Hfields.
    pose proof (crawl_loop_invariant (loop_body C W) _ (italy_pass_encodable W)
                  fuel [] (Some Italy.base_url) w) as Hencodable.
    rewrite Hrun in *. eexists _, o. split; [reflexivity|].
    split; [reflexivity|]. cbn [fetched console files].
    destruct o as [data|e|]; [|reflexivity|reflexivity].
    specialize (Hfields _ data (Forall_nil_2 _) eq_refl).
    specialize (Hencodable _ data (Forall_nil_2 _) eq_refl).
    destruct data as [|d0 rest]; [reflexivity|].
    exact (italy_sink_table d0 rest (py "unified_data.csv")
             (World (fetched w ++ trace) c (files w))
             (fields_same _ _ _ Hfields) Hencodable).
  - rewrite german_main_run.
    change (German.get_data W fuel German.start_url)
      with (crawl_loop (loop_body B W) fuel [] (Some German.start_url)).
    match goal with |- context [crawl_loop _ _ _ _ ?w0] =>
      destruct (crawl_loop_effects B W fuel [] (Some German.start_url) w0)
        as (trace & c & o & Hrun & _ & _ & _);
      pose proof (crawl_loop_fields B W fuel [] (Some German.start_url) w0)
        as Hfields
    end.
    rewrite Hrun in *. eexists _, o. split; [reflexivity|].
    cbn [fetched console files]. split; [reflexivity|].
    destruct o as [data|e|]; [|reflexivity|reflexivity].
    specialize (Hfields _ data (Forall_nil_2 _) eq_refl).
    destruct data as [|d0 rest]; cbn [list_truthy]; [reflexivity|].
    rewrite bind_run. unfold print at 1. cbn [fetched console files].
    rewrite (german_sink_upto d0 rest _ _ (fields_accepted _ _ _ Hfields)).
    cbn [fetched console files]. rewrite <- app_assoc. cbn [app].
    eexists _, _. split; [apply written_leaves|].
    split; [apply crawl_header_written, (Forall_inv Hfields)|reflexivity].
Qed.

(** A German page with a character reference to a lone surrogate in a
    cell: the crawl returns its two records, and the sink fails on the
    second. *)
Lemma german_main_partial_file :
  German.main Fixtures.german_web_surrogate 5 Fixtures.old_world
  = (World [German.start_url]
       [[PStr (py "Starting the data collection process...")];
        [PStr (py "Fetching data from page: " ++ German.start_url)];
        [PStr (py "Writing the collected data to a CSV file...")];
        [PStr (py "Writing data to: devices_data.csv")]]
       {[ py "devices_data.csv" :=
            [[VStr (py "date"); VStr (py "device"); VStr (py "device_type");
              VStr (py "device_reference")];
             [VStr (py "2023-05-01"); VStr (py "Pump X");
              VStr (py "Infusion"); VStr (py "01234/23")]] ]},
     Raised UnicodeEncodeError).
Proof. vm_compute. reflexivity. Qed.

(** ** Trimmed fields *)

Lemma lstrip_head (s : str) (c : Z) (r : str) :
  lstrip s = c :: r -> isspace c = false.
Proof.
  induction s as [|x s IH]; cbn [lstrip]; [discriminate|].
  destruct (isspace x) eqn:Hx; [exact IH|].
  intros H. inversion H; subst. exact Hx.
Qed.

Lemma lstrip_snoc (l : str) (c : Z) :
  isspace c = false -> lstrip (l ++ [c]) = lstrip l ++ [c].
Proof.
  intros Hc. induction l as [|x l IH]; cbn [app lstrip].
  - rewrite Hc. reflexivity.
  - destruct (isspace x); [exact IH|reflexivity].
Qed.

Lemma lstrip_suffix (s : str) : exists pre, s = pre ++ lstrip s.
Proof.
  induction s as [|x s [pre IH]]; cbn [lstrip]; [exists []; reflexivity|].
  destruct (isspace x).
  - exists (x :: pre). cbn [app]. rewrite <- IH. reflexivity.
  - exists []. reflexivity.
Qed.

Lemma strip_trimmed (s : str) : trimmed (strip s).
Proof.
  unfold trimmed, strip, rstrip. split; intros c r H.
  - destruct (lstrip s) as [|c0 r0] eqn:Hl; [destruct r; discriminate|].
    pose proof (lstrip_head _ _ _ Hl) as Hc0.
    cbn [rev] in H. rewrite lstrip_snoc in H by exact Hc0.
    rewrite rev_app_distr in H. cbn [rev app] in H.
    inversion H; subst. exact Hc0.
  - apply (f_equal (@rev Z)) in H.
    rewrite rev_involutive, rev_app_distr in H. cbn [rev app] in H.
    apply (lstrip_head _ _ _ H).
Qed.

Lemma strip_of_trimmed (s : str) : trimmed s -> strip s = s.
Proof.
  intros [Hhead Hlast]. unfold strip, rstrip.
  assert (Hl : lstrip s = s).
  { destruct s as [|c r]; [reflexivity|]. cbn [lstrip].
    rewrite (Hhead c r eq_refl). reflexivity. }
  rewrite Hl.
  destruct (rev s) as [|c r] eqn:Hr; [rewrite <- (rev_involutive s), Hr; reflexivity|].
  cbn [lstrip].
  assert (Hc : isspace c = false).
  { apply (Hlast c (rev r)). rewrite <- (rev_involutive s), Hr. reflexivity. }
  rewrite Hc, <- Hr. apply rev_involutive.
Qed.

Lemma sentinel_trimmed : trimmed (py "N/A").
Proof.
  split; intros c r H.
  - inversion H; subst. reflexivity.
  - apply (f_equal (@rev Z)) in H. rewrite rev_app_distr in H.
    inversion H; subst. reflexivity.
Qed.

Lemma call_strip_trimmed (x : option node) (f : value) (k : str) :
  call_strip x = Return f -> field_trimmed (k, f).
Proof.
  unfold call_strip, field_trimmed. intros H.
  destruct x as [[i s|nm at_ cl cs]|]; [| |discriminate].
  - inversion H; subst. apply strip_trimmed.
  - destruct (find _ _); inversion H; subst. exact I.
Qed.

(** X16. The string fields of a Dutch or German record have no white space
    at either end: each is the result of [strip], or the sentinel. *)
Theorem record_fields_trimmed (v : variant) (e : element) (d : record) :
  v <> C ->
  element_record v e = Return (Some d) ->
  Forall field_trimmed d.
Proof.
  intros Hv H. destruct v; [| |congruence]; cbn [element_record] in H.
  - destruct (Dutch.link_data e) as [d'|] eqn:Hl;
      cbn [mbind result_bind] in H; [|discriminate].
    inversion H; subst. unfold Dutch.link_data in Hl.
    destruct (not_none (find e (named (py "h3")))) as [h3|]; [|discriminate].
    cbn [mbind result_bind] in Hl.
    destruct (not_none (find e (named (py "p")))) as [p|]; [|discriminate].
    cbn [mbind result_bind] in Hl.
    destruct (not_none (find e Dutch.is_meta)) as [meta|]; [|discriminate].
    cbn [mbind result_bind] in Hl.
    destruct (py_index (split 124 (strip (get_text meta))) (-1)) as [last|];
      [|discriminate].
    cbn [mbind result_bind] in Hl. inversion Hl; subst.
    repeat constructor; apply strip_trimmed.
  - unfold German.row_data in H.
    destruct (length (find_all e (named (py "td"))) <? 2)%nat; [discriminate|].
    destruct (py_index (find_all e (named (py "td"))) 0) as [td0|]; [|discriminate].
    cbn [mbind result_bind] in H.
    destruct (py_index (find_all e (named (py "td"))) 1) as [td1|]; [|discriminate].
    cbn [mbind result_bind] in H.
    assert (Hdev : trimmed (match find td1 (named (py "a")) with
                            | Some a => strip (get_text a)
                            | None => py "N/A"
                            end))
      by (destruct (find td1 (named (py "a")));
          [apply strip_trimmed|apply sentinel_trimmed]).
    destruct (2 <=? length (find_all td1 (named (py "strong"))))%nat.
    + destruct (py_index (find_all td1 (named (py "strong"))) 0) as [s0|];
        [|discriminate].
      cbn [mbind result_bind] in H.
      destruct (call_strip (next_sibling s0)) as [f0|] eqn:H0; [|discriminate].
      cbn [mbind result_bind] in H.
      destruct (py_index (find_all td1 (named (py "strong"))) 1) as [s1|];
        [|discriminate].
      cbn [mbind result_bind] in H.
      destruct (call_strip (next_sibling s1)) as [f1|] eqn:H1; [|discriminate].
      cbn [mbind result_bind] in H. inversion H; subst.
      constructor; [apply strip_trimmed|].
      constructor; [exact Hdev|].
      constructor; [apply (call_strip_trimmed _ _ _ H0)|].
      constructor; [apply (call_strip_trimmed _ _ _ H1)|constructor].
    + cbn [mbind result_bind] in H. inversion H; subst.
      constructor; [apply strip_trimmed|].
      constructor; [exact Hdev|].
      repeat constructor; apply sentinel_trimmed.
Qed.

Lemma record_fields_trimmed_witness :
  Forall field_trimmed
    (german_fields (py "2023-05-01") (py "Pump X")
       (VStr (py "Infusion")) (VStr (py "01234/23"))).
Proof.
  apply (record_fields_trimmed B Fixtures.german_tr_full);
    [discriminate|vm_compute; reflexivity].
Defined.

(** ** The values of the Italian records *)

(** X17. Every value the Italian extractor puts under [column_1] is a
    string without surrogate code points, whatever the page held, so the
    strict UTF-8 encoding of the output file cannot fail on it. *)
Theorem italy_values_without_surrogates (soup : element)
    (data : list record) :
  Italy.scrape_page soup = Return data ->
  Forall (fun d => exists s,
            d = [(py "column_1", VStr s)]
            /\ Forall (fun c => is_surrogate c = false) s) data.
Proof.
  intros H. change (extract C soup = Return data) in H.
  rewrite extract_collect in H.
  destruct (collect_return C _ _ _ H) as (new & -> & Hall).
  cbn [app]. clear H.
  induction Hall as [|e d els new He _ IH]; constructor; [|exact IH].
  cbn [element_record] in He.
  destruct (Italy.row_data e) as [d'|] eqn:Hrow;
    cbn [mbind result_bind] in He; [|discriminate].
  inversion He; subst. unfold Italy.row_data in Hrow.
  destruct (py_index (find_all e (named (py "td"))) 0) as [c0|];
    cbn [mbind result_bind] in Hrow; [|discriminate].
  inversion Hrow; subst. eexists. split; [reflexivity|].
  apply remove_surrogates_clean.
Qed.

Lemma italy_values_without_surrogates_witness :
  Forall (fun d => exists s,
            d = [(py "column_1", VStr s)]
            /\ Forall (fun c => is_surrogate c = false) s)
    [[(py "column_1", VStr (py "Device 1"))];
     [(py "column_1", VStr (py "Dev2"))]].
Proof.
  apply (italy_values_without_surrogates (root Fixtures.italy_page1)).
  vm_compute. reflexivity.
Defined.

(** ** The date of a Dutch record *)

Lemma after_last_none (sep : Z) (s : str) :
  existsb (Z.eqb sep) s = false -> after_last sep s = s.
Proof.
  destruct s as [|c r]; [reflexivity|]. cbn [existsb after_last].
  intros H. apply orb_false_iff in H. destruct H as [Hc Hr].
  rewrite Hr. rewrite Z.eqb_sym in Hc. rewrite Hc. reflexivity.
Qed.

Lemma after_last_no_sep (sep : Z) (s : str) :
  existsb (Z.eqb sep) (after_last sep s) = false.
Proof.
  induction s as [|c r IH]; [reflexivity|]. cbn [after_last].
  destruct (existsb (Z.eqb sep) r) eqn:Hr; [exact IH|].
  destruct (c =? sep) eqn:Hc; [exact Hr|].
  cbn [existsb]. rewrite Hr, Z.eqb_sym, Hc. reflexivity.
Qed.

Lemma split_no_sep (sep : Z) (s : str) :
  existsb (Z.eqb sep) s = false -> split sep s = [s].
Proof.
  induction s as [|c r IH]; [reflexivity|]. cbn [existsb split].
  intros H. apply orb_false_iff in H. destruct H as [Hc Hr].
  rewrite Z.eqb_sym in Hc. rewrite Hc, (IH Hr). reflexivity.
Qed.

Lemma split_with_sep (sep : Z) (s : str) :
  existsb (Z.eqb sep) s = true ->
  exists h x t, split sep s = h :: x :: t.
Proof.
  induction s as [|c r IH]; [discriminate|]. cbn [existsb split].
  intros H. destruct (c =? sep) eqn:Hc.
  - destruct (split sep r) as [|x t] eqn:Hs;
      [exfalso; exact (split_not_nil _ _ Hs)|].
    exists [], x, t. reflexivity.
  - rewrite Z.eqb_sym, Hc in H. cbn [orb] in H.
    destruct (IH H) as (h & x & t & Hs). rewrite Hs.
    exists (c :: h), x, t. reflexivity.
Qed.

Lemma last_split (sep : Z) (s : str) :
  last (split sep s) = Some (after_last sep s).
Proof.
  induction s as [|c r IH]; [reflexivity|]. cbn [split after_last].
  destruct (existsb (Z.eqb sep) r) eqn:Hr.
  - destruct (split_with_sep sep r Hr) as (h & x & t & Hs).
    rewrite Hs in *. destruct (c =? sep); exact IH.
  - rewrite (split_no_sep sep r Hr). destruct (c =? sep); reflexivity.
Qed.

Lemma py_index_last {X} (l : list X) (x : X) :
  last l = Some x -> py_index l (-1) = Return x.
Proof.
  intros Hl. unfold py_index. change (-1 <? 0) with true. cbv iota.
  destruct l as [|x0 l]; [discriminate|].
  rewrite last_lookup in Hl. cbn [length Nat.pred] in *.
  replace (0 <=? -1 + Z.of_nat (S (length l))) with true
    by (symmetry; apply Z.leb_le; lia).
  replace (-1 + Z.of_nat (S (length l)) <? Z.of_nat (S (length l))) with true
    by (symmetry; apply Z.ltb_lt; lia).
  cbn [andb].
  replace (Z.to_nat (-1 + Z.of_nat (S (length l)))) with (length l) by lia.
  rewrite Hl. reflexivity.
Qed.

Lemma existsb_suffix {X} (p : X -> bool) (pre l : list X) :
  existsb p (pre ++ l) = false -> existsb p l = false.
Proof.
  rewrite existsb_app. intros H. apply orb_false_iff in H. tauto.
Qed.

Lemma existsb_rev {X} (p : X -> bool) (l : list X) :
  existsb p (rev l) = existsb p l.
Proof.
  induction l as [|x l IH]; [reflexivity|]. cbn [rev existsb].
  rewrite existsb_app, IH. cbn [existsb]. rewrite orb_false_r.
  apply orb_comm.
Qed.

Lemma existsb_lstrip (p : Z -> bool) (s : str) :
  existsb p s = false -> existsb p (lstrip s) = false.
Proof.
  destruct (lstrip_suffix s) as [pre Hs]. intros H.
  rewrite Hs in H. exact (existsb_suffix _ _ _ H).
Qed.

Lemma existsb_strip (p : Z -> bool) (s : str) :
  existsb p s = false -> existsb p (strip s) = false.
Proof.
  intros H. unfold strip, rstrip.
  rewrite existsb_rev. apply existsb_lstrip.
  rewrite existsb_rev. apply existsb_lstrip. exact H.
Qed.

(** X18. The date of a Dutch record is the part of the trimmed text of the
    metadata paragraph after its last pipe, trimmed again: it holds no
    pipe, and it is the whole trimmed text when that text has no pipe. *)
Theorem dutch_date_after_last_pipe (link meta : element) (d : record) :
  find link Dutch.is_meta = Some meta ->
  Dutch.link_data link = Return d ->
  let text := strip (get_text meta) in
  exists date,
    assoc (py "date") d = Some (VStr date)
    /\ date = strip (after_last 124 text)
    /\ existsb (Z.eqb 124) date = false
    /\ (existsb (Z.eqb 124) text = false -> date = text).
Proof.
  intros Hmeta H text. unfold Dutch.link_data in H. rewrite Hmeta in H.
  destruct (not_none (find link (named (py "h3")))) as [h3|]; [|discriminate].
  cbn [mbind result_bind] in H.
  destruct (not_none (find link (named (py "p")))) as [p|]; [|discriminate].
  cbn [not_none mbind result_bind] in H.
  rewrite (py_index_last _ _ (last_split 124 (strip (get_text meta)))) in H.
  cbn [mbind result_bind] in H. inversion H; subst.
  exists (strip (after_last 124 text)).
  split; [reflexivity|]. split; [reflexivity|]. split.
  - apply existsb_strip, after_last_no_sep.
  - intros Hno. rewrite (after_last_none _ _ Hno).
    apply strip_of_trimmed, strip_trimmed.
Qed.

Lemma dutch_date_after_last_pipe_witness :
  exists date,
    assoc (py "date")
      [(py "title", VStr (py "Recall A"));
       (py "warning_text", VStr (py "text A"));
       (py "date", VStr (py "2023-01-01"))] = Some (VStr date)
    /\ date = strip (after_last 124 (py "Published | 2023-01-01"))
    /\ existsb (Z.eqb 124) date = false
    /\ (existsb (Z.eqb 124) (py "Published | 2023-01-01") = false ->
        date = py "Published | 2023-01-01").
Proof.
  apply (dutch_date_after_last_pipe
           (Element (Fixtures.publication "Recall A" "text A"
                       "Published | 2023-01-01") None)
           (Element (Fixtures.tag_class "p" ["meta"%string]
                       [Fixtures.txt "Published | 2023-01-01"]) None));
    vm_compute; reflexivity.
Defined.

(** ** Links that end the crawl *)

Lemma page_outcome_returns (v : variant) (page : node) (data : list record) :
  extract v (root page) = Return data ->
  (v = B -> is_Some (find (root page) German.is_forward)) ->
  page_outcome v (root page) = Return (data, next_href v (root page)).
Proof.
  intros Hdata Hli. destruct v; unfold page_outcome, next_href, extract in *.
  - rewrite Hdata. reflexivity.
  - rewrite Hdata, german_next_url_of_spec. unfold next_anchor.
    destruct (Hli eq_refl) as [li Hfind]. rewrite Hfind. reflexivity.
  - rewrite Hdata. reflexivity.
Qed.

(** X19. The loop goes on only with a non-empty URL. A page that yields its
    records and whose next-page anchor is missing, has no [href], or has
    an empty [href] ends the crawl normally after its own request, with
    its records (in the German script the forward list item must be
    there). *)
Theorem crawl_ends_without_usable_href
    (v : variant) (W : web) (url : str) (page : node) (data : list record)
    (fuel : nat) (w : world) :
  str_truthy url = true ->
  serves W url page ->
  extract v (root page) = Return data ->
  (v = B -> is_Some (find (root page) German.is_forward)) ->
  truthy (next_href v (root page)) = false ->
  exists c,
    crawl v W (S fuel) url w
    = (World (fetched w ++ [url]) c (files w), Done data).
Proof.
  intros Hurl Hserves Hdata Hli Hnext.
  pose proof (loop_body_fetches_once v W url page Hserves) as Hpass.
  rewrite (page_outcome_returns v page data Hdata Hli) in Hpass.
  rewrite crawl_is_loop.
  destruct (crawl_loop_run (loop_body v W) url [url] (Return data)
              (run_stop _ url data _ Hurl Hpass Hnext) (S fuel) [] w)
    as [c Hc]; [cbn [length]; lia|].
  exists c. exact Hc.
Qed.

Lemma crawl_ends_without_usable_href_witness :
  exists c,
    crawl A Fixtures.dutch_empty_href_web 3 Dutch.start_url Fixtures.empty_world
    = (World ([] ++ [Dutch.start_url]) c ∅,
       Done [[(py "title", VStr (py "Recall A"));
              (py "warning_text", VStr (py "text A"));
              (py "date", VStr (py "2023-01-01"))]]).
Proof.
  apply (crawl_ends_without_usable_href A Fixtures.dutch_empty_href_web
           Dutch.start_url Fixtures.dutch_empty_href_page).
  - reflexivity.
  - serve_page Dutch.start_url.
  - vm_compute. reflexivity.
  - discriminate.
  - vm_compute. reflexivity.
Defined.

(** ** A page that does not answer *)

Lemma page_outcome_resolves_data (v : variant) (page : node) (url' : str)
    (data : list record) :
  extract v (root page) = Return data ->
  resolves v page url' ->
  page_outcome v (root page) = Return (data, Some url').
Proof.
  intros Hdata Hres.
  destruct (page_outcome_resolves v page url' Hres) as [data' H'].
  rewrite H'. destruct Hres as ((d & Hd) & _).
  assert (data' = data); [|subst; reflexivity].
  destruct v; unfold page_outcome, extract in *; rewrite Hdata in H'.
  - inversion H'. reflexivity.
  - cbn [mbind result_bind] in H'.
    destruct (German.next_url_of (root page)); inversion H'. reflexivity.
  - inversion H'. reflexivity.
Qed.

Lemma loop_body_transport_failure (v : variant) (W : web) (url : str)
    (e : exn) (w : world) :
  http_get W url user_agent_headers = Raise e ->
  exists c,
    loop_body v W url w
    = (World (fetched w ++ [url]) c (files w),
       match v with A => Done ([], None) | _ => Raised e end).
Proof.
  intros Hget. destruct v; unfold loop_body.
  - unfold Dutch.get_data_page, try_except, mbind, M_bind, print,
      requests_get. cbn [fetched console files]. rewrite Hget.
    eexists. reflexivity.
  - unfold German.get_data_page, mbind, M_bind, print, requests_get.
    cbn [fetched console files]. rewrite Hget. eexists. reflexivity.
  - unfold Italy.get_page, mbind, M_bind, requests_get.
    cbn [fetched console files]. rewrite Hget. eexists. reflexivity.
Qed.

Lemma crawl_loop_broken_link (v : variant) (W : web) (target : str) (e : exn) :
  str_truthy target = true ->
  http_get W target user_agent_headers = Raise e ->
  forall (pages : list (str * node)) (start : str) (fuel : nat)
         (acc : list record) (w : world),
    leads_to v W start pages target ->
    (length pages < fuel)%nat ->
    exists c,
      crawl_loop (loop_body v W) fuel acc (Some start) w
      = (World (fetched w ++ map fst pages ++ [target]) c (files w),
         match v with
         | A => Done (acc ++ pages_records v pages)
         | _ => Raised e
         end).
Proof.
  intros Htarget Hget.
  induction pages as [|[url page] rest IH]; intros start fuel acc w Hlead Hfuel.
  - cbn [leads_to] in Hlead. subst start.
    destruct fuel as [|fuel]; [cbn in Hfuel; lia|].
    rewrite crawl_loop_step by exact Htarget.
    destruct (loop_body_transport_failure v W target e w Hget) as [c Hc].
    rewrite Hc. exists c. cbn [map app pages_records flat_map].
    destruct v; [|reflexivity|reflexivity].
    rewrite crawl_loop_falsy by reflexivity. rewrite !app_nil_r. reflexivity.
  - cbn [leads_to] in Hlead.
    destruct Hlead as (-> & Hurl & Hserves & url' & Hres & Hrest).
    destruct fuel as [|fuel]; [cbn in Hfuel; lia|].
    rewrite crawl_loop_step by exact Hurl.
    destruct (loop_body_fetches_once v W start page Hserves w) as [c Hc].
    pose proof Hres as ((data & Hdata) & _).
    rewrite Hc, (page_outcome_resolves_data v page url' data Hdata Hres).
    cbn [to_outcome].
    destruct (IH url' fuel (acc ++ data)
                (World (fetched w ++ [start]) c (files w)) Hrest)
      as [c' Hc']; [cbn [length] in Hfuel; lia|].
    rewrite Hc'. cbn [fetched files map fst]. exists c'.
    rewrite <- !app_assoc. cbn [app].
    replace (pages_records v ((start, page) :: rest))
      with (data ++ pages_records v rest)
      by (unfold pages_records; cbn [flat_map snd]; rewrite Hdata; reflexivity).
    reflexivity.
Qed.

(** X3. When the next page of a crawl does not answer (a transport
    failure), the Dutch crawl ends normally with the records of the pages
    before it, and the German and the Italian crawl end with the exception
    of the request, their records lost.  Each has requested the pages
    before and the failing one, once. *)
Theorem crawl_with_broken_link
    (v : variant) (W : web) (start target : str) (pages : list (str * node))
    (e : exn) (fuel : nat) (w : world) :
  leads_to v W start pages target ->
  str_truthy target = true ->
  http_get W target user_agent_headers = Raise e ->
  (length pages < fuel)%nat ->
  exists c,
    crawl v W fuel start w
    = (World (fetched w ++ map fst pages ++ [target]) c (files w),
       match v with
       | A => Done (pages_records v pages)
       | _ => Raised e
       end).
Proof.
  intros Hlead Htarget Hget Hfuel. rewrite crawl_is_loop.
  apply (crawl_loop_broken_link v W target e Htarget Hget pages start fuel []
           w Hlead Hfuel).
Qed.

Lemma crawl_with_broken_link_witness :
  (exists c,
     crawl A Fixtures.dutch_web_broken 5 Dutch.start_url Fixtures.empty_world
     = (World ([] ++ [Dutch.start_url] ++ [py "https://igj.example/page2"]) c ∅,
        Done (pages_records A [(Dutch.start_url, Fixtures.dutch_page1)])))
  /\ (exists c,
        crawl B Fixtures.german_web_broken 5 German.start_url
          Fixtures.empty_world
        = (World ([] ++ [German.start_url] ++ [py "http://bfarm.example/page2"])
                 c ∅,
           Raised (RequestException (py "connection error")))).
Proof.
  split.
  - apply (crawl_with_broken_link A Fixtures.dutch_web_broken Dutch.start_url
             (py "https://igj.example/page2")
             [(Dutch.start_url, Fixtures.dutch_page1)]
             (RequestException (py "connection error")) 5
             Fixtures.empty_world); [|reflexivity|reflexivity|cbn; lia].
    cbn [leads_to]. split; [reflexivity|]. split; [reflexivity|].
    split; [serve_page Dutch.start_url|].
    exists (py "https://igj.example/page2"). split; [resolve_link|reflexivity].
  - apply (crawl_with_broken_link B Fixtures.german_web_broken German.start_url
             (py "http://bfarm.example/page2")
             [(German.start_url, Fixtures.german_page1)]
             (RequestException (py "connection error")) 5
             Fixtures.empty_world); [|reflexivity|reflexivity|cbn; lia].
    cbn [leads_to]. split; [reflexivity|]. split; [reflexivity|].
    split; [serve_page German.start_url|].
    exists (py "http://bfarm.example/page2"). split; [resolve_link|reflexivity].
Defined.

(** ** Chains of pages *)

Lemma next_href_without_anchor (v : variant) (soup : element) :
  next_anchor v soup = None -> next_href v soup = None.
Proof. unfold next_href. intros ->. reflexivity. Qed.

Lemma crawl_loop_chain (v : variant) (W : web) (last_url : str)
    (last_page : node) (data : list record) :
  str_truthy last_url = true ->
  serves W last_url last_page ->
  extract v (root last_page) = Return data ->
  next_anchor v (root last_page) = None ->
  (v = B -> is_Some (find (root last_page) German.is_forward)) ->
  forall (pages : list (str * node)) (start : str) (fuel : nat)
         (acc : list record) (w : world),
    leads_to v W start pages last_url ->
    (length pages < fuel)%nat ->
    exists c,
      crawl_loop (loop_body v W) fuel acc (Some start) w
      = (World (fetched w ++ map fst pages ++ [last_url]) c (files w),
         Done (acc ++ pages_records v pages ++ data)).
Proof.
  intros Hlast Hserves Hdata Hanchor Hli.
  induction pages as [|[url page] rest IH]; intros start fuel acc w Hlead Hfuel.
  - cbn [leads_to] in Hlead. subst start.
    destruct fuel as [|fuel]; [cbn in Hfuel; lia|].
    rewrite crawl_loop_step by exact Hlast.
    destruct (loop_body_fetches_once v W last_url last_page Hserves w)
      as [c Hc].
    rewrite Hc, (page_outcome_returns v last_page data Hdata Hli),
      (next_href_without_anchor v _ Hanchor).
    cbn [to_outcome]. rewrite crawl_loop_falsy by reflexivity.
    exists c. reflexivity.
  - cbn [leads_to] in Hlead.
    destruct Hlead as (-> & Hurl & Hserves' & url' & Hres & Hrest).
    destruct fuel as [|fuel]; [cbn in Hfuel; lia|].
    rewrite crawl_loop_step by exact Hurl.
    destruct (loop_body_fetches_once v W start page Hserves' w) as [c Hc].
    pose proof Hres as ((data' & Hdata') & _).
    rewrite Hc, (page_outcome_resolves_data v page url' data' Hdata' Hres).
    cbn [to_outcome].
    destruct (IH url' fuel (acc ++ data')
                (World (fetched w ++ [start]) c (files w)) Hrest)
      as [c' Hc']; [cbn [length] in Hfuel; lia|].
    rewrite Hc'. cbn [fetched files map fst]. exists c'.
    rewrite <- !app_assoc. cbn [app].
    replace (pages_records v ((start, page) :: rest))
      with (data' ++ pages_records v rest)
      by (unfold pages_records; cbn [flat_map snd]; rewrite Hdata'; reflexivity).
    rewrite <- !app_assoc. reflexivity.
Qed.

(** C8, amended. On a chain of K pages, each answered under a non-empty
    URL and each yielding its records, where every page but the last
    resolves a link to the next and the last has no next-link anchor (in
    the German script with its forward list item present), the crawl loop
    of each script requests exactly the K pages, once each and in chain
    order, and then returns: with fuel for K passes it ends normally, with
    the records of the K pages in page order, and it touches no file.
    Here [pages] are the first K-1 pages and [last_page] is the K-th. *)
Theorem crawl_chain_fetches_each_page_once
    (v : variant) (W : web) (start : str) (pages : list (str * node))
    (last_url : str) (last_page : node) (data : list record)
    (fuel : nat) (w : world) :
  leads_to v W start pages last_url ->
  str_truthy last_url = true ->
  serves W last_url last_page ->
  extract v (root last_page) = Return data ->
  next_anchor v (root last_page) = None ->
  (v = B -> is_Some (find (root last_page) German.is_forward)) ->
  (length pages < fuel)%nat ->
  exists w' : world,
    crawl v W fuel start w = (w', Done (pages_records v pages ++ data))
    /\ fetched w' = fetched w ++ map fst pages ++ [last_url]
    /\ length (fetched w') = (length (fetched w) + S (length pages))%nat
    /\ files w' = files w.
Proof.
  intros Hlead Hlast Hserves Hdata Hanchor Hli Hfuel. rewrite crawl_is_loop.
  destruct (crawl_loop_chain v W last_url last_page data Hlast Hserves Hdata
              Hanchor Hli pages start fuel [] w Hlead Hfuel) as [c Hc].
  rewrite Hc. eexists. split; [reflexivity|]. cbn [fetched files].
  split; [reflexivity|]. split; [|reflexivity].
  rewrite !length_app, length_map. cbn [length]. lia.
Qed.

Lemma crawl_chain_witness :
  (exists w',
     crawl A Fixtures.dutch_web 2 Dutch.start_url Fixtures.empty_world
     = (w', Done (pages_records A [(Dutch.start_url, Fixtures.dutch_page1)]
                  ++ [[(py "title", VStr (py "Recall C"));
                       (py "warning_text", VStr (py "text C"));
                       (py "date", VStr (py "2023-01-03"))]]))
     /\ fetched w' = [] ++ [Dutch.start_url] ++ [py "https://igj.example/page2"]
     /\ length (fetched w') = (0 + 2)%nat
     /\ files w' = ∅)
  /\ (exists w',
        crawl B Fixtures.german_web 2 German.start_url Fixtures.empty_world
        = (w', Done (pages_records B [(German.start_url, Fixtures.german_page1)]
                     ++ [Fixtures.record_april]))
        /\ fetched w'
           = [] ++ [German.start_url] ++ [py "http://bfarm.example/page2"]
        /\ length (fetched w') = (0 + 2)%nat
        /\ files w' = ∅)
  /\ (exists w',
        crawl C Fixtures.italy_web 2 Italy.base_url Fixtures.empty_world
        = (w', Done (pages_records C [(Italy.base_url, Fixtures.italy_page1)]
                     ++ [[(py "column_1", VStr (py "Device 3"))]]))
        /\ fetched w' = [] ++ [Italy.base_url] ++ [py "http://example.com/page2"]
        /\ length (fetched w') = (0 + 2)%nat
        /\ files w' = ∅).
Proof.
  split; [|split].
  - apply (crawl_chain_fetches_each_page_once A Fixtures.dutch_web
             Dutch.start_url [(Dutch.start_url, Fixtures.dutch_page1)]
             (py "https://igj.example/page2") Fixtures.dutch_page2).
    + cbn [leads_to]. split; [reflexivity|]. split; [reflexivity|].
      split; [serve_page Dutch.start_url|].
      exists (py "https://igj.example/page2").
      split; [resolve_link|reflexivity].
    + reflexivity.
    + serve_page (py "https://igj.example/page2").
    + vm_compute. reflexivity.
    + vm_compute. reflexivity.
    + discriminate.
    + cbn. lia.
  - apply (crawl_chain_fetches_each_page_once B Fixtures.german_web
             German.start_url [(German.start_url, Fixtures.german_page1)]
             (py "http://bfarm.example/page2") Fixtures.german_page2).
    + cbn [leads_to]. split; [reflexivity|]. split; [reflexivity|].
      split; [serve_page German.start_url|].
      exists (py "http://bfarm.example/page2").
      split; [resolve_link|reflexivity].
    + reflexivity.
    + serve_page (py "http://bfarm.example/page2").
    + vm_compute. reflexivity.
    + vm_compute. reflexivity.
    + intros _. vm_compute. eexists. reflexivity.
    + cbn. lia.
  - apply (crawl_chain_fetches_each_page_once C Fixtures.italy_web
             Italy.base_url [(Italy.base_url, Fixtures.italy_page1)]
             (py "http://example.com/page2") Fixtures.italy_page2).
    + cbn [leads_to]. split; [reflexivity|]. split; [reflexivity|].
      split; [serve_page Italy.base_url|].
      exists (py "http://example.com/page2").
      split; [resolve_link|reflexivity].
    + reflexivity.
    + serve_page (py "http://example.com/page2").
    + vm_compute. reflexivity.
    + vm_compute. reflexivity.
    + discriminate.
    + cbn. lia.
Defined.

(** C8 as it is written fails twice.  The first Dutch page carries a link
    to the second, which has none, but one of its publications lacks its
    heading: [get_data_page] catches the exception and answers no next
    URL, so the crawl makes one request, not two, and returns no record.
    The first German page links to the second, which has no next-link
    element at all, not even the forward list item: the crawl makes its
    two requests and then ends with AttributeError, not normally. *)
Lemma crawl_chain_counterexample :
  (serves_page Fixtures.dutch_web_no_h3 Dutch.start_url
     = Some Fixtures.dutch_page_no_h3
   /\ next_href A (root Fixtures.dutch_page_no_h3)
      = Some (py "https://igj.example/page2")
   /\ serves_page Fixtures.dutch_web_no_h3 (py "https://igj.example/page2")
      = Some Fixtures.dutch_page2
   /\ next_anchor A (root Fixtures.dutch_page2) = None
   /\ fetched (crawl A Fixtures.dutch_web_no_h3 5 Dutch.start_url
                 Fixtures.empty_world).1
      = [Dutch.start_url]
   /\ (crawl A Fixtures.dutch_web_no_h3 5 Dutch.start_url
         Fixtures.empty_world).2
      = Done [])
  /\ (serves_page Fixtures.german_web_no_li German.start_url
      = Some Fixtures.german_page1
      /\ German.page_records (root Fixtures.german_page1)
         = Return [Fixtures.record_pump; Fixtures.record_plain]
      /\ next_href B (root Fixtures.german_page1)
         = Some (py "http://bfarm.example/page2")
      /\ serves_page Fixtures.german_web_no_li (py "http://bfarm.example/page2")
         = Some Fixtures.german_page2_no_li
      /\ next_anchor B (root Fixtures.german_page2_no_li) = None
      /\ fetched (crawl B Fixtures.german_web_no_li 5 German.start_url
                    Fixtures.empty_world).1
         = [German.start_url; py "http://bfarm.example/page2"]
      /\ (crawl B Fixtures.german_web_no_li 5 German.start_url
            Fixtures.empty_world).2
         = Raised AttributeError).
Proof.
  split; compute_each.
Qed.

(** ** German rows whose bold elements lack their text *)

Lemma german_row_two_bold_run (tr td0 td1 : element) (rest : list element)
    (s0 s1 : element) (more : list element) :
  find_all tr (named (py "td")) = td0 :: td1 :: rest ->
  find_all td1 (named (py "strong")) = s0 :: s1 :: more ->
  German.row_data tr
  = (device_type ← call_strip (next_sibling s0);
     device_reference ← call_strip (next_sibling s1);
     Return (Some (german_fields (strip (get_text td0))
                     (anchor_text_or_na td1) device_type device_reference))).
Proof.
  intros Htds Hbold. unfold German.row_data. rewrite Htds.
  cbn [length]. change (S (S (length rest)) <? 2)%nat with false. cbv iota.
  rewrite py_index_0, py_index_1. cbn [mbind result_bind].
  rewrite Hbold. cbn [length].
  change (2 <=? S (S (length more)))%nat with true. cbv iota.
  rewrite py_index_0, py_index_1. cbn [mbind result_bind].
  destruct (call_strip (next_sibling s0)) as [a|e]; [|reflexivity].
  cbn [mbind result_bind].
  destruct (call_strip (next_sibling s1)) as [b|e]; reflexivity.
Qed.

(** X20. A German row with two cells and two bold elements or more needs a
    string right after each of the first two.  When the first of them that
    has none is the last child of its parent, the row raises
    AttributeError; when it is followed by a tag (one without a [strip]
    element inside), the row raises TypeError. *)
Theorem german_row_raises_without_text
    (tr td0 td1 : element) (rest : list element)
    (s0 s1 : element) (more : list element) (s : element) :
  find_all tr (named (py "td")) = td0 :: td1 :: rest ->
  find_all td1 (named (py "strong")) = s0 :: s1 :: more ->
  (s = s0 \/ (is_Some (following_text s0) /\ s = s1)) ->
  (next_sibling s = None -> German.row_data tr = Raise AttributeError)
  /\ (forall t : node,
        next_sibling s = Some t -> is_tag t = true ->
        find (Element t None) (named (py "strip")) = None ->
        German.row_data tr = Raise TypeError).
Proof.
  intros Htds Hbold Hs.
  rewrite (german_row_two_bold_run tr td0 td1 rest s0 s1 more Htds Hbold).
  destruct Hs as [->|[[t0 H0] ->]].
  - split.
    + intros Hn. rewrite Hn. reflexivity.
    + intros t Hn Htag Hfind. rewrite Hn. cbn [call_strip].
      destruct t as [i x|nm at_ cl cs]; [discriminate|].
      rewrite Hfind. reflexivity.
  - rewrite (call_strip_following s0 t0 H0). cbn [mbind result_bind]. split.
    + intros Hn. rewrite Hn. reflexivity.
    + intros t Hn Htag Hfind. rewrite Hn. cbn [call_strip].
      destruct t as [i x|nm at_ cl cs]; [discriminate|].
      rewrite Hfind. reflexivity.
Qed.

Lemma german_row_raises_without_text_witness :
  German.row_data Fixtures.german_tr_bold_only = Raise TypeError.
Proof.
  destruct (german_row_raises_without_text Fixtures.german_tr_bold_only
              (Element (Fixtures.tag "td" [Fixtures.txt "2023-05-03"])
                 (Some (Fixtures.tag "td"
                          [Fixtures.anchor "/doc2" [Fixtures.txt "Stent Y"];
                           Fixtures.tag "strong" [Fixtures.txt "Product group"];
                           Fixtures.tag "strong" [Fixtures.txt "Reference"]])))
              (Element (Fixtures.tag "td"
                          [Fixtures.anchor "/doc2" [Fixtures.txt "Stent Y"];
                           Fixtures.tag "strong" [Fixtures.txt "Product group"];
                           Fixtures.tag "strong" [Fixtures.txt "Reference"]])
                 None)
              []
              (Element (Fixtures.tag "strong" [Fixtures.txt "Product group"])
                 (Some (Fixtures.tag "strong" [Fixtures.txt "Reference"])))
              (Element (Fixtures.tag "strong" [Fixtures.txt "Reference"]) None)
              []
              (Element (Fixtures.tag "strong" [Fixtures.txt "Product group"])
                 (Some (Fixtures.tag "strong" [Fixtures.txt "Reference"]))))
    as [_ Htag].
  - vm_compute. reflexivity.
  - vm_compute. reflexivity.
  - left. reflexivity.
  - apply (Htag (Fixtures.tag "strong" [Fixtures.txt "Reference"]));
      vm_compute; reflexivity.
Defined.
